(** * Two constructions of the multi-controlled NOT ("TOFF") gate

    Shallow embedding of
      - notebooks/tutorials/lang/realistic_lib.py  (dac_toffoli)
      - tutorials/lang/simulation_lib.py           (standard_toffoli)
    together with a model of the circuit-building primitives of
    qat.lang.AQASM they call, and a semantics of the built routines on
    computational basis states. *)

From stdpp Require Import base list strings.
From Stdlib Require Import ZArith Lia.

Local Open Scope Z_scope.

(** ** Python values shared by both files *)

Inductive PyException : Type :=
| RecursionError          (* maximum recursion depth exceeded *)
| IndexError              (* list index out of range *)
| InvalidGateArguments    (* gate applied to a wrong number of wires *)
| TypeError               (* a negative number of controls *)
| NothingToUncompute.     (* uncompute() without a closed compute scope *)

Inductive Result (A : Type) : Type :=
| Ok (a : A)
| Raise (e : PyException).
Arguments Ok {A} a.
Arguments Raise {A} e.

Inductive PyType : Type := PyInt | PyFloat | PyStr.

(** Python's index normalisation for slices: negative indices count from
    the end, and both ends are clipped to the length. *)
Definition py_bound (len i : Z) : Z :=
  if i <? 0 then Z.max 0 (len + i) else Z.min i len.

(** [l[lo:hi]] *)
Definition slice {A} (l : list A) (lo hi : Z) : list A :=
  let len := Z.of_nat (length l) in
  let a := py_bound len lo in
  let b := py_bound len hi in
  take (Z.to_nat (b - a)) (drop (Z.to_nat a) l).

(** [l[lo:]] *)
Definition slice_from {A} (l : list A) (lo : Z) : list A :=
  drop (Z.to_nat (py_bound (Z.of_nat (length l)) lo)) l.

(** [l[i]] *)
Definition item {A} (l : list A) (i : Z) : Result A :=
  let len := Z.of_nat (length l) in
  let j := if i <? 0 then len + i else i in
  if (0 <=? j) && (j <? len) then
    match l !! Z.to_nat j with
    | Some x => Ok x
    | None => Raise IndexError
    end
  else Raise IndexError.

(** ** The circuit-building library (qat.lang.AQASM) *)

(** Modelled from the spec: the gate objects of the external library.
    [X] is the NOT gate, [Ctrl k g] is [g] with [k] more controls (the
    first [k] wires are controls), and [Routine] is a routine used as a
    gate: its wire count, the wires marked as ancillae, and its list of
    gate applications.  Ancillae are borrowed by the routine and do not
    count in its arity.  [Abstract name k ar dagger] is what calling a
    function decorated with [build_gate] returns: a gate that only
    records the registered name, the parameter [k] and the declared
    arity [ar]; the decorated body is not run by the call, it is run
    when the gate is linked.  [dagger] tells whether the gate has been
    inverted. *)
#[warnings="-register-all"]
Inductive Gate : Type :=
| X : Gate
| Ctrl (nbctrls : Z) (g : Gate)
| Routine (nbwires : nat) (anc : list nat) (ops : list (Gate * list nat))
| Abstract (name : string) (param : Z) (ar : Z) (dagger : bool).

(** A gate application: the gate and the wires it is applied to. *)
Definition Op : Type := Gate * list nat.

(** The gate [g.ctrl(k)] returns when it returns one; it is built
    through [py_ctrl] only, so with [k >= 0]. *)
Definition ctrl (nbctrls : Z) (g : Gate) : Gate := Ctrl nbctrls g.

(** Modelled from the spec: [g.ctrl(k)].  A negative number of controls
    is refused. *)
Definition py_ctrl (g : Gate) (nbctrls : Z) : Result Gate :=
  if nbctrls <? 0 then Raise TypeError else Ok (ctrl nbctrls g).

(** Modelled from the spec: calling the object that
    [@build_gate(name, arg_types, arity)] puts in place of the decorated
    function. *)
Definition call_gate (name : string) (ar : Z -> Z) (k : Z) : Gate :=
  Abstract name k (ar k) false.

Fixpoint gate_arity (g : Gate) : Z :=
  match g with
  | X => 1
  | Ctrl k g' => k + gate_arity g'
  | Routine m anc _ => Z.of_nat m - Z.of_nat (length anc)
  | Abstract _ _ ar _ => ar
  end.

(** [g.dag()]: the inverse gate.  A routine is inverted by inverting its
    gate applications in reverse order. *)
Fixpoint dag (g : Gate) : Gate :=
  match g with
  | X => X
  | Ctrl k g' => Ctrl k (dag g')
  | Routine m anc ops =>
      Routine m anc (rev (map (fun op : Gate * list nat =>
                                 let (g', ws) := op in (dag g', ws)) ops))
  | Abstract name k ar dagger => Abstract name k ar (negb dagger)
  end.

Definition dag_op (op : Op) : Op := (dag (fst op), snd op).

(** Modelled from the spec: the mutable circuit-fragment object.
    [computed] holds the closed compute scopes that [uncompute] has not
    inverted yet, innermost first. *)
Record QRoutine : Type := mkQRoutine {
  max_wire : nat;
  op_list : list Op;
  ancillae : list nat;
  computed : list (list Op)
}.

(** A routine applied as a gate. *)
Definition routine_gate (r : QRoutine) : Gate :=
  Routine (max_wire r) (ancillae r) (op_list r).

Definition arity (r : QRoutine) : Z := gate_arity (routine_gate r).

(** Statements that act on a routine under construction and may raise. *)
Definition Build (A : Type) : Type := QRoutine -> Result (A * QRoutine).

Definition ret {A} (a : A) : Build A := fun r => Ok (a, r).

Definition bind {A B} (m : Build A) (k : A -> Build B) : Build B :=
  fun r => match m r with
           | Ok (a, r') => k a r'
           | Raise e => Raise e
           end.

(** The value of an expression evaluated outside the routine. *)
Definition lift {A} (x : Result A) : Build A :=
  fun r => match x with
           | Ok a => Ok (a, r)
           | Raise e => Raise e
           end.

Declare Scope build_scope.
Delimit Scope build_scope with build.
Notation "x <- m ;; k" := (bind m (fun x => k))
  (at level 100, m at next level, right associativity) : build_scope.
Notation "m ;; k" := (bind m (fun _ => k))
  (at level 100, right associativity) : build_scope.

(** [rout = QRoutine()] *)
Definition new_routine : QRoutine :=
  {| max_wire := 0; op_list := []; ancillae := []; computed := [] |}.

(** Runs the statements of a function body on a fresh routine and
    returns the routine. *)
Definition build (body : Build unit) : Result QRoutine :=
  match body new_routine with
  | Ok (_, r) => Ok r
  | Raise e => Raise e
  end.

(** Modelled from the spec: [rout.new_wires(k)] allocates [k] fresh wires,
    numbered after the ones allocated so far, and returns them. *)
Definition new_wires (k : Z) : Build (list nat) :=
  fun r => Ok (seq (max_wire r) (Z.to_nat k),
               {| max_wire := (max_wire r + Z.to_nat k)%nat;
                  op_list := op_list r;
                  ancillae := ancillae r;
                  computed := computed r |}).

(** Modelled from the spec: [rout.apply(gate, *wires)] appends one gate
    application; the number of wires must be the gate's arity. *)
Definition apply (g : Gate) (ws : list nat) : Build unit :=
  fun r => if Z.of_nat (length ws) =? gate_arity g then
             Ok (tt, {| max_wire := max_wire r;
                        op_list := op_list r ++ [(g, ws)];
                        ancillae := ancillae r;
                        computed := computed r |})
           else Raise InvalidGateArguments.

(** Modelled from the spec: [rout.set_ancillae(wires)]. *)
Definition set_ancillae (ws : list nat) : Build unit :=
  fun r => Ok (tt, {| max_wire := max_wire r;
                      op_list := op_list r;
                      ancillae := ancillae r ++ ws;
                      computed := computed r |}).

(** Modelled from the spec: [with rout.compute(): body].  The gate
    applications appended by [body] form a compute scope. *)
Definition compute {A} (body : Build A) : Build A :=
  fun r => match body r with
           | Ok (a, r') =>
               Ok (a, {| max_wire := max_wire r';
                         op_list := op_list r';
                         ancillae := ancillae r';
                         computed := drop (length (op_list r)) (op_list r')
                                       :: computed r' |})
           | Raise e => Raise e
           end.

(** Modelled from the spec: [rout.uncompute()] inverts the last closed
    compute scope: its gate applications are appended inverted, last
    one first. *)
Definition uncompute : Build unit :=
  fun r => match computed r with
           | blk :: rest =>
               Ok (tt, {| max_wire := max_wire r;
                          op_list := op_list r ++ rev (map dag_op blk);
                          ancillae := ancillae r;
                          computed := rest |})
           | [] => Raise NothingToUncompute
           end.

(** Modelled from the spec: linking.  When a circuit is generated, an
    abstract gate applied in a routine is replaced by the routine its
    generator [gen] gives for its parameter, inverted if the gate was;
    the other gate applications stay. *)
Definition link_op (gen : Z -> Result QRoutine) (op : Op) : Result Op :=
  match fst op with
  | Abstract _ k _ dagger =>
      match gen k with
      | Ok r => Ok (if dagger then dag (routine_gate r) else routine_gate r,
                    snd op)
      | Raise e => Raise e
      end
  | _ => Ok op
  end.

Fixpoint link_ops (gen : Z -> Result QRoutine) (ops : list Op)
    : Result (list Op) :=
  match ops with
  | [] => Ok []
  | op :: rest =>
      match link_op gen op with
      | Ok op' =>
          match link_ops gen rest with
          | Ok rest' => Ok (op' :: rest')
          | Raise e => Raise e
          end
      | Raise e => Raise e
      end
  end.

Definition link (gen : Z -> Result QRoutine) (r : QRoutine) : Result QRoutine :=
  match link_ops gen (op_list r) with
  | Ok ops => Ok {| max_wire := max_wire r;
                    op_list := ops;
                    ancillae := ancillae r;
                    computed := computed r |}
  | Raise e => Raise e
  end.

(** Modelled from the spec: what [@build_gate(name, arg_types, arity)]
    records in the gate registry for the decorated function. *)
Record AbstractGate : Type := mkAbstractGate {
  gate_name : string;
  arg_types : list PyType;
  declared_arity : Z -> Z;
  circuit_generator : Z -> Result QRoutine
}.

Definition build_gate (name : string) (types : list PyType) (ar : Z -> Z)
    (f : Z -> Result QRoutine) : AbstractGate :=
  {| gate_name := name; arg_types := types;
     declared_arity := ar; circuit_generator := f |}.

(** ** tutorials/lang/simulation_lib.py *)

Module simulation_lib.

(** The decorated body: the circuit generator of the gate. *)
Definition standard_toffoli (n : Z) : Result QRoutine :=
  build (wires <- new_wires n ;;
         g <- lift (py_ctrl X (n - 1)) ;;
         apply g wires)%build.

Definition TOFF : AbstractGate :=
  build_gate "TOFF" [PyInt] (fun n => n) standard_toffoli.

End simulation_lib.

(** ** notebooks/tutorials/lang/realistic_lib.py *)

Module realistic_lib.

Definition first_half (n : Z) : Z := (n - 1) / 2 + (n - 1) mod 2.
Definition second_half (n : Z) : Z := (n - 1) / 2.

(** What the name [dac_toffoli] denotes once line 8 has rebound it:
    calling it builds a gate and does not run the body. *)
Definition dac_toffoli_gate (k : Z) : Gate :=
  call_gate "TOFF" (fun n => n) k.

(** The decorated body, lines 10 to 32: the circuit generator of the
    gate.  Its nested calls only build gates. *)
Definition dac_toffoli_generator (n : Z) : Result QRoutine :=
  build (controls <- new_wires (n - 1) ;;
         target <- new_wires 1 ;;
         if n =? 3 then
           ccnot <- lift (py_ctrl X 2) ;;
           apply ccnot (controls ++ target)
         else
           ancs <- compute (
             let first_toffoli := dac_toffoli_gate (first_half n + 1) in
             first_anc <- new_wires 1 ;;
             apply first_toffoli
                   (slice controls 0 (first_half n) ++ first_anc) ;;
             set_ancillae first_anc ;;
             if second_half n >? 1 then
               let second_toffoli := dac_toffoli_gate (second_half n + 1) in
               second_anc <- new_wires 1 ;;
               apply second_toffoli
                     (slice_from controls (first_half n) ++ second_anc) ;;
               set_ancillae second_anc ;;
               ret (first_anc, second_anc)
             else
               second_anc <- lift (item controls (-1)) ;;
               ret (first_anc, [second_anc])) ;;
           ccnot <- lift (py_ctrl X 2) ;;
           apply ccnot (fst ancs ++ snd ancs ++ target) ;;
           uncompute)%build.

(** The routine of [dac_toffoli(n)] with its nested gates linked: the
    generator is run, then each abstract gate it applied is replaced by
    the linked routine of that gate.  [depth] is how deep the linking
    may nest; when none is left it stops with [RecursionError]. *)
Fixpoint dac_toffoli (depth : nat) (n : Z) : Result QRoutine :=
  match depth with
  | O => Raise RecursionError
  | S depth' =>
      match dac_toffoli_generator n with
      | Ok r => link (dac_toffoli depth') r
      | Raise e => Raise e
      end
  end.

Definition TOFF : AbstractGate :=
  build_gate "TOFF" [PyInt] (fun n => n) dac_toffoli_generator.

End realistic_lib.

(** ** Semantics on computational basis states *)

(** A register holds one bit per wire.  [gather] reads the wires a gate
    is applied to, [scatter] writes them back. *)
Definition gather (ws : list nat) (st : list bool) : list bool :=
  map (fun w => default false (st !! w)) ws.

Fixpoint scatter (ws : list nat) (vs : list bool) (st : list bool) : list bool :=
  match ws, vs with
  | w :: ws', v :: vs' => scatter ws' vs' (<[w := v]> st)
  | _, _ => st
  end.

(** The wires of a routine that are its arguments, in order. *)
Definition non_ancillae (m : nat) (anc : list nat) : list nat :=
  filter (fun w => w ∉ anc) (seq 0 m).

(** The register a routine starts on: its arguments, and every ancilla
    at 0. *)
Definition embed (m : nat) (anc : list nat) (bs : list bool) : list bool :=
  scatter (non_ancillae m anc) bs (replicate m false).

Definition project (m : nat) (anc : list nat) (st : list bool) : list bool :=
  gather (non_ancillae m anc) st.

Definition all_zero (anc : list nat) (st : list bool) : bool :=
  forallb (fun a => negb (default false (st !! a))) anc.

(** [sem g bs] is the action of [g] on the basis state [bs] of its
    wires, and whether every ancilla borrowed on the way, at any depth,
    was back at 0 when its routine ended.  An abstract gate that has not
    been linked has no action yet: the state is left as it is and
    nothing is promised about ancillae. *)
Fixpoint sem (g : Gate) (bs : list bool) : list bool * bool :=
  match g with
  | X =>
      match bs with
      | [b] => ([negb b], true)
      | _ => (bs, true)
      end
  | Ctrl k g' =>
      let cs := take (Z.to_nat k) bs in
      if forallb id cs then
        let (ts, ok) := sem g' (drop (Z.to_nat k) bs) in (cs ++ ts, ok)
      else (bs, true)
  | Routine m anc ops =>
      let fix run (ops : list (Gate * list nat)) (st : list bool * bool) :=
        match ops with
        | [] => st
        | (g', ws) :: ops' =>
            let (vs, ok) := sem g' (gather ws (fst st)) in
            run ops' (scatter ws vs (fst st), snd st && ok)
        end in
      let (st, ok) := run ops (embed m anc bs, true) in
      (project m anc st, ok && all_zero anc st)
  | Abstract _ _ _ _ => (bs, false)
  end.

(** One gate application on a register. *)
Definition step (st : list bool * bool) (op : Op) : list bool * bool :=
  let (vs, ok) := sem (fst op) (gather (snd op) (fst st)) in
  (scatter (snd op) vs (fst st), snd st && ok).

Definition run_ops (ops : list Op) (st : list bool * bool) : list bool * bool :=
  foldl step st ops.

(** The final register of a routine, ancillae included. *)
Definition run_routine (r : QRoutine) (bs : list bool) : list bool * bool :=
  run_ops (op_list r) (embed (max_wire r) (ancillae r) bs, true).

(** The truth table of the multi-controlled NOT in the specification's
    words: the last wire of [bs] is the target and is flipped iff all
    the wires before it are 1; the other wires are unchanged. *)
Definition controlled_not_table (bs out : list bool) : Prop :=
  length out = length bs ∧
  (∀ i, (i < length bs - 1)%nat → out !! i = bs !! i) ∧
  (∀ t, bs !! (length bs - 1)%nat = Some t →
        out !! (length bs - 1)%nat
        = Some (if forallb id (take (length bs - 1) bs) then negb t else t)).

(** The same table as a function. *)
Definition toffoli_table (bs : list bool) : list bool :=
  let cs := take (length bs - 1) bs in
  cs ++ map (xorb (forallb id cs)) (drop (length bs - 1) bs).

(** ** The routines that get built, and predicates on them *)

(** [g] acts on [k] wires as the multi-controlled NOT and leaves no
    ancilla dirty. *)
Definition toffoli_spec (g : Gate) (k : nat) : Prop :=
  ∀ bs, length bs = k → sem g bs = (toffoli_table bs, true).

Import realistic_lib simulation_lib.

(** The gate applications of the recursive case when both halves get a
    recursive call: [a] and [b] are the sizes of the halves, [g1] and
    [g2] the gates built for them. *)
Definition dac_ops (a b : nat) (g1 g2 : Gate) : list Op :=
  [ (g1, seq 0 a ++ [(a + b + 1)%nat]);
    (g2, seq a b ++ [(a + b + 2)%nat]);
    (ctrl 2 X, [(a + b + 1)%nat; (a + b + 2)%nat; (a + b)%nat]);
    (dag g2, seq a b ++ [(a + b + 2)%nat]);
    (dag g1, seq 0 a ++ [(a + b + 1)%nat]) ].

(** The compute scope of the recursive case. *)
Definition dac_block (a b : nat) (g1 g2 : Gate) : list Op :=
  [ (g1, seq 0 a ++ [(a + b + 1)%nat]);
    (g2, seq a b ++ [(a + b + 2)%nat]) ].

(** What the base case builds. *)
Definition dac_three : QRoutine :=
  {| max_wire := 3;
     op_list := [(ctrl 2 X, [0; 1; 2]%nat)];
     ancillae := [];
     computed := [] |}.

(** What [n = 4] builds: the second half is the single wire 2. *)
Definition dac_four : QRoutine :=
  {| max_wire := 5;
     op_list := [ (routine_gate dac_three, [0; 1; 4]%nat);
                  (ctrl 2 X, [4; 2; 3]%nat);
                  (dag (routine_gate dac_three), [0; 1; 4]%nat) ];
     ancillae := [4%nat];
     computed := [] |}.

(** What the recursive case builds from the routines of the two halves. *)
Definition dac_node (n : Z) (r1 r2 : QRoutine) : QRoutine :=
  {| max_wire := (Z.to_nat n + 2)%nat;
     op_list := dac_ops (Z.to_nat (first_half n)) (Z.to_nat (second_half n))
                  (routine_gate r1) (routine_gate r2);
     ancillae := seq (Z.to_nat n) 2;
     computed := [] |}.

(** The facts about a built routine that the recursion relies on. *)
Definition well_built (n : Z) (r : QRoutine) : Prop :=
  arity r = n ∧
  computed r = [] ∧
  dag (routine_gate r) = routine_gate r ∧
  toffoli_spec (routine_gate r) (Z.to_nat n).

(** Linking [depth] levels deep is enough for [n] wires. *)
Definition deep_enough (depth : nat) (n : Z) : Prop :=
  n - 1 <= 2 ^ Z.of_nat depth.

(** What [standard_toffoli] builds. *)
Definition standard_routine (n : Z) : QRoutine :=
  {| max_wire := Z.to_nat n;
     op_list := [(ctrl (n - 1) X, seq 0 (Z.to_nat n))];
     ancillae := [];
     computed := [] |}.

(** Which of the three routines a successful call returns. *)
Definition dac_shape (depth : nat) (n : Z) (r : QRoutine) : Prop :=
  (n = 3 ∧ r = dac_three) ∨
  (n = 4 ∧ r = dac_four) ∨
  (5 <= n ∧ ∃ d r1 r2,
      depth = S d ∧
      dac_toffoli d (first_half n + 1) = Ok r1 ∧
      dac_toffoli d (second_half n + 1) = Ok r2 ∧
      r = dac_node n r1 r2).

(** The gates left once every routine used as a gate is expanded, in
    the order they are applied. *)
Fixpoint primitive_gates (g : Gate) : list Gate :=
  match g with
  | Routine _ _ ops =>
      flat_map (fun op : Gate * list nat =>
                  let (g', _) := op in primitive_gates g') ops
  | X | Ctrl _ _ | Abstract _ _ _ _ => [g]
  end.

(** Every gate application, at every nesting depth, is on as many wires
    as the gate's arity, all distinct and all allocated by the routine
    it is in; the ancillae are distinct allocated wires too. *)
Fixpoint well_wired (g : Gate) : bool :=
  match g with
  | X | Abstract _ _ _ _ => true
  | Ctrl _ g' => well_wired g'
  | Routine m anc ops =>
      forallb (fun a => (a <? m)%nat) anc && bool_decide (NoDup anc) &&
      forallb (fun op : Gate * list nat =>
                 let (g', ws) := op in
                 well_wired g' &&
                 (Z.of_nat (length ws) =? gate_arity g') &&
                 forallb (fun w => (w <? m)%nat) ws &&
                 bool_decide (NoDup ws)) ops
  end.

(** ** Registers: reading and writing runs of wires *)

Section Registers.
Implicit Types (st pre mid post vs : list bool) (ws : list nat).

Lemma gather_app ws1 ws2 st :
  gather (ws1 ++ ws2) st = gather ws1 st ++ gather ws2 st.
Proof. unfold gather. apply map_app. Qed.

Lemma gather_seq pre mid post :
  gather (seq (length pre) (length mid)) (pre ++ mid ++ post) = mid.
Proof.
  revert pre. induction mid as [|x mid IH]; intros pre; [reflexivity|].
  cbn [length seq gather map app].
  fold (gather (seq (S (length pre)) (length mid))).
  rewrite list_lookup_middle by reflexivity. cbn [default]. f_equal.
  specialize (IH (pre ++ [x])).
  rewrite length_app, Nat.add_1_r, <- app_assoc in IH. exact IH.
Qed.

Lemma gather_seq_at i k pre mid post st :
  st = pre ++ mid ++ post → i = length pre → k = length mid →
  gather (seq i k) st = mid.
Proof. intros -> -> ->. apply gather_seq. Qed.

Lemma scatter_app ws1 ws2 vs1 vs2 st :
  length ws1 = length vs1 →
  scatter (ws1 ++ ws2) (vs1 ++ vs2) st = scatter ws2 vs2 (scatter ws1 vs1 st).
Proof.
  revert vs1 st. induction ws1 as [|w ws1 IH]; intros [|v vs1] st Hlen;
    try discriminate; [reflexivity|].
  cbn. apply IH. now injection Hlen.
Qed.

Lemma scatter_seq pre old vs post :
  length old = length vs →
  scatter (seq (length pre) (length vs)) vs (pre ++ old ++ post)
  = pre ++ vs ++ post.
Proof.
  revert pre old. induction vs as [|v vs IH]; intros pre [|o old] Hlen;
    try discriminate; [reflexivity|].
  cbn [length seq scatter].
  replace (<[length pre:=v]> (pre ++ (o :: old) ++ post))
    with ((pre ++ [v]) ++ old ++ post).
  - specialize (IH (pre ++ [v]) old).
    rewrite length_app, Nat.add_1_r in IH. rewrite IH by now injection Hlen.
    now rewrite <- app_assoc.
  - rewrite <- (Nat.add_0_r (length pre)), insert_app_r.
    now rewrite <- app_assoc.
Qed.

Lemma scatter_seq_at i pre old vs post st :
  st = pre ++ old ++ post → i = length pre → length old = length vs →
  scatter (seq i (length vs)) vs st = pre ++ vs ++ post.
Proof. intros -> -> ?. now apply scatter_seq. Qed.

Lemma gather_one i st x : st !! i = Some x → gather [i] st = [x].
Proof. intros H. unfold gather. cbn. now rewrite H. Qed.

Lemma insert_middle pre x y post :
  <[length pre := y]> (pre ++ x :: post) = pre ++ y :: post.
Proof. now rewrite <- (Nat.add_0_r (length pre)), insert_app_r. Qed.

Lemma lookup_app_at pre post i j :
  i = (length pre + j)%nat → (pre ++ post) !! i = post !! j.
Proof.
  intros ->. rewrite lookup_app_r by lia. f_equal. lia.
Qed.

Lemma insert_app_at pre post i j (v : bool) :
  i = (length pre + j)%nat → <[i := v]> (pre ++ post) = pre ++ <[j := v]> post.
Proof. intros ->. apply insert_app_r. Qed.

Lemma split_halves vs a b :
  length vs = (a + b + 1)%nat →
  ∃ c1 c2 t, vs = c1 ++ c2 ++ [t] ∧ length c1 = a ∧ length c2 = b.
Proof.
  intros Hlen.
  destruct vs as [|t cs _] using rev_ind;
    [cbn in Hlen; lia|].
  rewrite length_app in Hlen. cbn in Hlen.
  exists (take a cs), (drop a cs), t. split; [|split].
  - now rewrite app_assoc, take_drop.
  - rewrite length_take. lia.
  - rewrite length_drop. lia.
Qed.

Lemma filter_keep_all (anc ws : list nat) :
  (∀ w, w ∈ ws → w ∉ anc) → filter (fun w => w ∉ anc) ws = ws.
Proof.
  induction ws as [|w ws IH]; intros H; [reflexivity|].
  rewrite filter_cons_True by (apply H; left).
  f_equal. apply IH. intros w' Hw'. apply H. now right.
Qed.

Lemma filter_drop_all (anc ws : list nat) :
  (∀ w, w ∈ ws → w ∈ anc) → filter (fun w => w ∉ anc) ws = [].
Proof.
  induction ws as [|w ws IH]; intros H; [reflexivity|].
  rewrite filter_cons_False by (intros Hn; apply Hn, H; left).
  apply IH. intros w' Hw'. apply H. now right.
Qed.

Lemma non_ancillae_nil m : non_ancillae m [] = seq 0 m.
Proof.
  unfold non_ancillae. apply filter_keep_all.
  intros w _. apply not_elem_of_nil.
Qed.

Lemma non_ancillae_tail n k : non_ancillae (n + k) (seq n k) = seq 0 n.
Proof.
  unfold non_ancillae. rewrite seq_app, filter_app. cbn [Nat.add].
  rewrite <- (app_nil_r (seq 0 n)) at 2. f_equal.
  - apply filter_keep_all. intros w Hw Hin.
    apply elem_of_seq in Hw, Hin. lia.
  - now apply filter_drop_all.
Qed.

Lemma embed_tail n k vs :
  length vs = n → embed (n + k) (seq n k) vs = vs ++ replicate k false.
Proof.
  intros Hlen. unfold embed. rewrite non_ancillae_tail, replicate_add.
  subst n.
  apply (scatter_seq_at 0 [] (replicate (length vs) false) vs
           (replicate k false)); try reflexivity.
  apply length_replicate.
Qed.

Lemma project_tail n k vs tl :
  length vs = n → project (n + k) (seq n k) (vs ++ tl) = vs.
Proof.
  intros Hlen. unfold project. rewrite non_ancillae_tail. subst n.
  now apply (gather_seq_at 0 (length vs) [] vs tl).
Qed.

Lemma all_zero_tail n vs k :
  length vs = n → all_zero (seq n k) (vs ++ replicate k false) = true.
Proof.
  intros Hlen. unfold all_zero. apply forallb_forall. intros a Ha.
  apply in_seq in Ha.
  rewrite lookup_app_r by lia.
  rewrite lookup_replicate_2 by lia. reflexivity.
Qed.
End Registers.

(** ** Gates on registers *)

Section Steps.
Implicit Types (st pre cs mid post bs : list bool) (ws : list nat).

Lemma sem_Routine m anc ops bs :
  sem (Routine m anc ops) bs =
  let (st, ok) := run_ops ops (embed m anc bs, true) in
  (project m anc st, ok && all_zero anc st).
Proof.
  cbn [sem]. generalize (embed m anc bs, true). unfold run_ops.
  induction ops as [|[g ws] ops IH]; intros st; [reflexivity|].
  cbn [foldl]. rewrite <- IH. unfold step. cbn [fst snd].
  destruct (sem g (gather ws st.1)). reflexivity.
Qed.

Lemma run_ops_cons op ops s : run_ops (op :: ops) s = run_ops ops (step s op).
Proof. reflexivity. Qed.

Lemma run_ops_nil s : run_ops [] s = s.
Proof. reflexivity. Qed.

Lemma toffoli_table_snoc cs a :
  toffoli_table (cs ++ [a]) = cs ++ [xorb (forallb id cs) a].
Proof.
  unfold toffoli_table. rewrite length_app, Nat.add_sub.
  now rewrite take_app_length, drop_app_length.
Qed.

Lemma snoc_of_length bs k :
  length bs = S k → ∃ cs a, bs = cs ++ [a] ∧ length cs = k.
Proof.
  intros Hlen. destruct bs as [|b bs] using rev_ind; [discriminate|].
  exists bs, b. split; [reflexivity|].
  rewrite length_app in Hlen. cbn in Hlen. lia.
Qed.

Lemma sem_ctrl_X k : toffoli_spec (ctrl (Z.of_nat k) X) (S k).
Proof.
  intros bs Hlen. destruct (snoc_of_length _ _ Hlen) as (cs & a & -> & Hcs).
  rewrite toffoli_table_snoc. unfold ctrl. cbn [sem]. rewrite Nat2Z.id.
  subst k. rewrite take_app_length, drop_app_length.
  destruct (forallb id cs), a; reflexivity.
Qed.

(** A gate with the multi-controlled-NOT table, applied to a run of
    control wires and one later wire. *)
Lemma step_sub g pre cs mid a post st ws ok :
  toffoli_spec g (S (length cs)) →
  st = pre ++ cs ++ mid ++ a :: post →
  ws = seq (length pre) (length cs) ++ [(length pre + length cs + length mid)%nat] →
  step (st, ok) (g, ws) = (pre ++ cs ++ mid ++ xorb (forallb id cs) a :: post, ok).
Proof.
  intros Hg -> ->. unfold step. cbn [fst snd].
  rewrite gather_app, gather_seq.
  assert (Hidx : (length pre + length cs + length mid)%nat
                 = length (pre ++ cs ++ mid)) by (rewrite !length_app; lia).
  assert (Hst : pre ++ cs ++ mid ++ a :: post = (pre ++ cs ++ mid) ++ a :: post)
    by (now rewrite <- !app_assoc).
  rewrite (gather_one _ _ a)
    by (rewrite Hst, Hidx; now apply list_lookup_middle).
  rewrite Hg by (rewrite length_app; cbn; lia).
  rewrite toffoli_table_snoc, scatter_app by (now rewrite length_seq).
  rewrite scatter_seq by reflexivity.
  cbn [scatter]. rewrite Hst, Hidx, insert_middle, andb_true_r.
  now rewrite <- !app_assoc.
Qed.

(** The doubly-controlled NOT on three distinct wires. *)
Lemma step_ccnot st ok i j k x y z :
  st !! i = Some x → st !! j = Some y → st !! k = Some z →
  step (st, ok) (ctrl 2 X, [i; j; k]) = (<[k := xorb (x && y) z]> st, ok).
Proof.
  intros Hi Hj Hk. unfold step, ctrl. cbn [fst snd].
  assert (Hg : gather [i; j; k] st = [x; y; z])
    by (unfold gather; cbn [map]; now rewrite Hi, Hj, Hk).
  assert (Hs : sem (Ctrl 2 X) [x; y; z] = ([x; y; xorb (x && y) z], true))
    by (destruct x, y, z; reflexivity).
  rewrite Hg, Hs. cbn [scatter].
  rewrite (list_insert_id st i x Hi), (list_insert_id st j y Hj).
  now rewrite andb_true_r.
Qed.
End Steps.

(** ** The routine built by [dac_toffoli] *)

Lemma apply_ok g ws r :
  Z.of_nat (length ws) = gate_arity g →
  apply g ws r = Ok (tt, {| max_wire := max_wire r;
                            op_list := op_list r ++ [(g, ws)];
                            ancillae := ancillae r;
                            computed := computed r |}).
Proof. intros H. unfold apply. now rewrite (proj2 (Z.eqb_eq _ _) H). Qed.

Lemma dac_ops_split a b g1 g2 :
  dac_ops a b g1 g2
  = dac_block a b g1 g2
      ++ [(ctrl 2 X, [(a + b + 1)%nat; (a + b + 2)%nat; (a + b)%nat])]
      ++ rev (map dag_op (dac_block a b g1 g2)).
Proof. reflexivity. Qed.

Section Halves.
Variable n : Z.
Hypothesis Hn : 4 <= n.

Lemma halves_sum : first_half n + second_half n = n - 1.
Proof.
  unfold first_half, second_half.
  pose proof (Z.div_mod (n - 1) 2 ltac:(lia)). lia.
Qed.

Lemma first_half_bounds : 2 <= first_half n < n - 1.
Proof.
  unfold first_half.
  pose proof (Z.div_mod (n - 1) 2 ltac:(lia)).
  pose proof (Z.mod_pos_bound (n - 1) 2 ltac:(lia)). lia.
Qed.

Lemma second_half_bounds : 1 <= second_half n <= first_half n.
Proof.
  unfold first_half, second_half.
  pose proof (Z.div_mod (n - 1) 2 ltac:(lia)).
  pose proof (Z.mod_pos_bound (n - 1) 2 ltac:(lia)). lia.
Qed.

Lemma slice_controls m :
  Z.of_nat m = n - 1 →
  slice (seq 0 m) 0 (first_half n) = seq 0 (Z.to_nat (first_half n)).
Proof.
  intros Hm. pose proof first_half_bounds.
  unfold slice, py_bound. rewrite length_seq.
  destruct (Z.ltb_spec 0 0); [lia|].
  destruct (Z.ltb_spec (first_half n) 0); [lia|].
  rewrite Z.min_l, Z.min_l, Z.sub_0_r by lia.
  change (Z.to_nat 0) with 0%nat. rewrite drop_0, take_seq. f_equal. lia.
Qed.

Lemma slice_from_controls m :
  Z.of_nat m = n - 1 →
  slice_from (seq 0 m) (first_half n)
  = seq (Z.to_nat (first_half n)) (Z.to_nat (second_half n)).
Proof.
  intros Hm. pose proof first_half_bounds. pose proof halves_sum.
  unfold slice_from, py_bound. rewrite length_seq.
  destruct (Z.ltb_spec (first_half n) 0); [lia|].
  rewrite Z.min_l by lia. rewrite drop_seq. f_equal; lia.
Qed.
End Halves.

Lemma second_half_large n : 5 <= n → 2 <= second_half n.
Proof.
  intros Hn. unfold second_half.
  pose proof (Z.div_mod (n - 1) 2 ltac:(lia)).
  pose proof (Z.mod_pos_bound (n - 1) 2 ltac:(lia)). lia.
Qed.

Lemma dac_toffoli_generator_node n :
  5 <= n →
  dac_toffoli_generator n =
  Ok {| max_wire := (Z.to_nat n + 2)%nat;
        op_list := dac_ops (Z.to_nat (first_half n)) (Z.to_nat (second_half n))
                     (dac_toffoli_gate (first_half n + 1))
                     (dac_toffoli_gate (second_half n + 1));
        ancillae := seq (Z.to_nat n) 2;
        computed := [] |}.
Proof.
  intros Hn.
  pose proof (halves_sum n) as Hsum.
  pose proof (first_half_bounds n ltac:(lia)) as Hfh.
  pose proof (second_half_bounds n ltac:(lia)) as Hsh.
  pose proof (second_half_large n Hn) as Hsh2.
  unfold dac_toffoli_generator.
  rewrite (proj2 (Z.eqb_neq n 3)) by lia.
  replace (second_half n >? 1) with true by (symmetry; apply Z.gtb_lt; lia).
  change (py_ctrl X 2) with (Ok (ctrl 2 X)).
  cbv [build bind compute lift new_wires set_ancillae ret new_routine
       max_wire op_list ancillae computed].
  rewrite (slice_controls n) by lia.
  rewrite (slice_from_controls n) by lia.
  change (Z.to_nat 1) with 1%nat.
  replace (Z.to_nat n) with (Z.to_nat (n - 1) + 1)%nat by lia.
  replace (Z.to_nat (n - 1))
    with (Z.to_nat (first_half n) + Z.to_nat (second_half n))%nat by lia.
  set (a := Z.to_nat (first_half n)) in *.
  set (b := Z.to_nat (second_half n)) in *.
  rewrite apply_ok
    by (rewrite length_app, !length_seq; cbn [dac_toffoli_gate call_gate gate_arity]; lia).
  cbv [max_wire op_list ancillae computed].
  rewrite apply_ok
    by (rewrite length_app, !length_seq; cbn [dac_toffoli_gate call_gate gate_arity]; lia).
  cbv [max_wire op_list ancillae computed].
  rewrite apply_ok by reflexivity.
  cbv [uncompute max_wire op_list ancillae computed].
  cbn [length drop app map rev dag_op fst snd seq Nat.add].
  unfold dac_ops.
  replace (a + b + 1 + 1)%nat with (a + b + 2)%nat by lia.
  replace (S (a + b + 1)) with (a + b + 2)%nat by lia.
  replace (a + b + 2 + 1)%nat with (a + b + 1 + 2)%nat by lia.
  reflexivity.
Qed.

Lemma dac_toffoli_step d n r1 r2 :
  5 <= n →
  dac_toffoli d (first_half n + 1) = Ok r1 → arity r1 = first_half n + 1 →
  dac_toffoli d (second_half n + 1) = Ok r2 → arity r2 = second_half n + 1 →
  dac_toffoli (S d) n =
  Ok {| max_wire := (Z.to_nat n + 2)%nat;
        op_list := dac_ops (Z.to_nat (first_half n)) (Z.to_nat (second_half n))
                     (routine_gate r1) (routine_gate r2);
        ancillae := seq (Z.to_nat n) 2;
        computed := [] |}.
Proof.
  intros Hn H1 _ H2 _.
  cbn [dac_toffoli]. rewrite (dac_toffoli_generator_node n Hn).
  unfold link, dac_ops, dac_toffoli_gate, call_gate, ctrl.
  cbn [op_list max_wire ancillae computed link_ops link_op fst snd dag negb].
  rewrite H1, H2. reflexivity.
Qed.

(** ** Semantics of the recursive case *)

Ltac reg_eq := cbn [app replicate]; rewrite <- ?app_assoc; cbn [app]; reflexivity.
Ltac wires_eq :=
  cbn [length]; rewrite ?length_app; cbn [length];
  f_equal; first [lia | f_equal; lia].

Lemma dac_ops_dag a b g1 g2 m anc :
  dag g1 = g1 → dag g2 = g2 →
  dag (Routine m anc (dac_ops a b g1 g2)) = Routine m anc (dac_ops a b g1 g2).
Proof.
  intros D1 D2. unfold dac_ops. cbn [dag map rev app ctrl].
  now rewrite !D1, !D2.
Qed.

Lemma dac_ops_sem a b g1 g2 :
  toffoli_spec g1 (S a) → toffoli_spec g2 (S b) →
  dag g1 = g1 → dag g2 = g2 →
  toffoli_spec (Routine (a + b + 1 + 2) (seq (a + b + 1) 2) (dac_ops a b g1 g2))
               (a + b + 1).
Proof.
  intros G1 G2 D1 D2 bs Hlen.
  destruct (split_halves bs a b Hlen) as (c1 & c2 & t & -> & Hc1 & Hc2).
  subst a b.
  rewrite sem_Routine, embed_tail by exact Hlen.
  unfold dac_ops. rewrite D1, D2, !run_ops_cons, run_ops_nil.
  rewrite (step_sub g1 [] c1 (c2 ++ [t]) false [false]);
    [ | exact G1 | reg_eq | wires_eq ].
  set (A1 := xorb (forallb id c1) false).
  rewrite (step_sub g2 c1 c2 [t; A1] false []);
    [ | exact G2 | reg_eq | wires_eq ].
  set (A2 := xorb (forallb id c2) false).
  match goal with
  | |- context [step (?st, _) (ctrl 2 X, _)] =>
      replace st with ((c1 ++ c2) ++ [t; A1; A2]) by reg_eq
  end.
  rewrite (step_ccnot _ _ _ _ _ A1 A2 t);
    [ | rewrite (lookup_app_at _ _ _ 1) by (rewrite length_app; lia); reflexivity
      | rewrite (lookup_app_at _ _ _ 2) by (rewrite length_app; lia); reflexivity
      | rewrite (lookup_app_at _ _ _ 0) by (rewrite length_app; lia); reflexivity ].
  rewrite (insert_app_at _ _ _ 0) by (rewrite length_app; lia).
  cbn [list_insert insert].
  set (t' := xorb (A1 && A2) t).
  rewrite (step_sub g2 c1 c2 [t'; A1] A2 []);
    [ | exact G2 | reg_eq | wires_eq ].
  rewrite (step_sub g1 [] c1 (c2 ++ [t']) A1 [xorb (forallb id c2) A2]);
    [ | exact G1 | reg_eq | wires_eq ].
  replace (c1 ++ c2 ++ [t]) with ((c1 ++ c2) ++ [t]) by reg_eq.
  rewrite toffoli_table_snoc, forallb_app.
  subst t' A1 A2.
  replace ([] ++ c1 ++ (c2 ++ [xorb (xorb (forallb id c1) false
                                     && xorb (forallb id c2) false) t]) ++
           xorb (forallb id c1) (xorb (forallb id c1) false)
           :: [xorb (forallb id c2) (xorb (forallb id c2) false)])
    with (((c1 ++ c2) ++ [xorb (forallb id c1 && forallb id c2) t])
            ++ replicate 2 false)
    by (destruct (forallb id c1), (forallb id c2); reg_eq).
  assert (Hlen' : length ((c1 ++ c2) ++ [xorb (forallb id c1 && forallb id c2) t])
                  = (length c1 + length c2 + 1)%nat)
    by (rewrite !length_app; cbn; lia).
  now rewrite project_tail, all_zero_tail.
Qed.

(** ** The built routines, by size *)

Lemma dac_toffoli_3 d : dac_toffoli (S d) 3 = Ok dac_three.
Proof. reflexivity. Qed.

Lemma dac_toffoli_4 d : dac_toffoli (S (S d)) 4 = Ok dac_four.
Proof. reflexivity. Qed.

Lemma dac_three_spec : toffoli_spec (routine_gate dac_three) 3.
Proof.
  intros [|x [|y [|z [|? ?]]]] Hlen; try discriminate.
  destruct x, y, z; reflexivity.
Qed.

Lemma dac_four_spec : toffoli_spec (routine_gate dac_four) 4.
Proof.
  intros [|x [|y [|z [|t [|? ?]]]]] Hlen; try discriminate.
  destruct x, y, z, t; reflexivity.
Qed.

Lemma well_built_three : well_built 3 dac_three.
Proof. repeat split. apply dac_three_spec. Qed.

Lemma well_built_four : well_built 4 dac_four.
Proof. repeat split. apply dac_four_spec. Qed.

Lemma well_built_node n r1 r2 :
  5 <= n →
  well_built (first_half n + 1) r1 → well_built (second_half n + 1) r2 →
  well_built n (dac_node n r1 r2).
Proof.
  intros Hn (A1 & _ & D1 & S1) (A2 & _ & D2 & S2).
  pose proof (halves_sum n) as Hsum.
  pose proof (first_half_bounds n ltac:(lia)) as Hfh.
  pose proof (second_half_large n Hn) as Hsh.
  assert (HN : Z.to_nat n
               = (Z.to_nat (first_half n) + Z.to_nat (second_half n) + 1)%nat)
    by lia.
  repeat split.
  - unfold arity, dac_node, routine_gate. cbn. lia.
  - unfold dac_node, routine_gate. cbn [max_wire ancillae op_list].
    now apply dac_ops_dag.
  - unfold dac_node, routine_gate. cbn [max_wire ancillae op_list].
    rewrite HN. apply dac_ops_sem; try assumption.
    + replace (S (Z.to_nat (first_half n)))
        with (Z.to_nat (first_half n + 1)) by lia. exact S1.
    + replace (S (Z.to_nat (second_half n)))
        with (Z.to_nat (second_half n + 1)) by lia. exact S2.
Qed.

Lemma deep_enough_first d n :
  4 <= n → deep_enough (S d) n → deep_enough d (first_half n + 1).
Proof.
  unfold deep_enough, first_half. intros Hn Hd.
  rewrite Nat2Z.inj_succ, Z.pow_succ_r in Hd by lia.
  pose proof (Z.div_mod (n - 1) 2 ltac:(lia)).
  pose proof (Z.mod_pos_bound (n - 1) 2 ltac:(lia)). lia.
Qed.

Lemma deep_enough_second d n :
  4 <= n → deep_enough (S d) n → deep_enough d (second_half n + 1).
Proof.
  unfold deep_enough, second_half. intros Hn Hd.
  rewrite Nat2Z.inj_succ, Z.pow_succ_r in Hd by lia.
  pose proof (Z.div_mod (n - 1) 2 ltac:(lia)).
  pose proof (Z.mod_pos_bound (n - 1) 2 ltac:(lia)). lia.
Qed.

Lemma dac_toffoli_well_built d :
  ∀ n, 3 <= n → deep_enough d n →
       ∃ r, dac_toffoli d n = Ok r ∧ well_built n r.
Proof.
  induction d as [|d IH]; intros n Hn Hd.
  - unfold deep_enough in Hd. cbn in Hd. lia.
  - destruct (Z.eq_dec n 3) as [->|N3].
    { exists dac_three. split; [apply dac_toffoli_3 | apply well_built_three]. }
    destruct (Z.eq_dec n 4) as [->|N4].
    { destruct d as [|d]; [unfold deep_enough in Hd; cbn in Hd; lia|].
      exists dac_four. split; [apply dac_toffoli_4 | apply well_built_four]. }
    pose proof (first_half_bounds n ltac:(lia)) as Hfh.
    pose proof (second_half_large n ltac:(lia)) as Hsh.
    destruct (IH (first_half n + 1) ltac:(lia)
                 (deep_enough_first d n ltac:(lia) Hd)) as (r1 & H1 & W1).
    destruct (IH (second_half n + 1) ltac:(lia)
                 (deep_enough_second d n ltac:(lia) Hd)) as (r2 & H2 & W2).
    exists (dac_node n r1 r2). split.
    + apply dac_toffoli_step; try assumption; try lia.
      * apply W1.
      * apply W2.
    + apply well_built_node; try assumption. lia.
Qed.

Lemma dac_toffoli_node d n :
  5 <= n → deep_enough (S d) n →
  ∃ r1 r2,
    dac_toffoli d (first_half n + 1) = Ok r1 ∧
    dac_toffoli d (second_half n + 1) = Ok r2 ∧
    dac_toffoli (S d) n = Ok (dac_node n r1 r2).
Proof.
  intros Hn Hd.
  pose proof (first_half_bounds n ltac:(lia)) as Hfh.
  pose proof (second_half_large n Hn) as Hsh.
  destruct (dac_toffoli_well_built d (first_half n + 1) ltac:(lia)
              (deep_enough_first d n ltac:(lia) Hd)) as (r1 & H1 & W1).
  destruct (dac_toffoli_well_built d (second_half n + 1) ltac:(lia)
              (deep_enough_second d n ltac:(lia) Hd)) as (r2 & H2 & W2).
  exists r1, r2. repeat split; try assumption.
  apply dac_toffoli_step; try assumption; [apply W1 | apply W2].
Qed.

(** Linking less deep than [deep_enough] asks for is not enough. *)
Lemma dac_toffoli_too_shallow d :
  ∀ n, 3 <= n → ¬ deep_enough d n → dac_toffoli d n = Raise RecursionError.
Proof.
  induction d as [|d IH]; intros n Hn Hd; [reflexivity|].
  assert (Hpow : 0 < 2 ^ Z.of_nat d) by (apply Z.pow_pos_nonneg; lia).
  assert (H4 : 4 <= n).
  { unfold deep_enough in Hd.
    rewrite Nat2Z.inj_succ, Z.pow_succ_r in Hd by lia. lia. }
  pose proof (first_half_bounds n H4) as Hfh.
  assert (Hd' : ¬ deep_enough d (first_half n + 1)).
  { unfold deep_enough, first_half in *.
    rewrite Nat2Z.inj_succ, Z.pow_succ_r in Hd by lia.
    pose proof (Z.div_mod (n - 1) 2 ltac:(lia)).
    pose proof (Z.mod_pos_bound (n - 1) 2 ltac:(lia)). lia. }
  destruct (Z.eq_dec n 4) as [->|N4].
  { destruct d as [|d]; [reflexivity|]. exfalso. apply Hd.
    unfold deep_enough. rewrite !Nat2Z.inj_succ, !Z.pow_succ_r by lia.
    assert (0 < 2 ^ Z.of_nat d) by (apply Z.pow_pos_nonneg; lia). lia. }
  cbn [dac_toffoli]. rewrite (dac_toffoli_generator_node n) by lia.
  unfold link, dac_ops, dac_toffoli_gate, call_gate.
  cbn [op_list link_ops link_op fst snd].
  rewrite (IH (first_half n + 1) ltac:(lia) Hd'). reflexivity.
Qed.

(** ** Fewer than three wires *)

Lemma slice_nil {A} lo hi : slice (@nil A) lo hi = [].
Proof. unfold slice. now rewrite drop_nil, take_nil. Qed.

Lemma first_half_negative n : n < 0 → first_half n + 1 <= 0.
Proof.
  intros Hn. unfold first_half.
  pose proof (Z.div_mod (n - 1) 2 ltac:(lia)).
  pose proof (Z.mod_pos_bound (n - 1) 2 ltac:(lia)). lia.
Qed.

Lemma dac_toffoli_generator_negative n :
  n < 0 → dac_toffoli_generator n = Raise InvalidGateArguments.
Proof.
  intros Hn. pose proof (first_half_negative n Hn) as Hfh.
  unfold dac_toffoli_generator.
  rewrite (proj2 (Z.eqb_neq n 3)) by lia.
  cbv [build bind compute lift new_wires set_ancillae ret new_routine
       max_wire op_list ancillae computed].
  replace (Z.to_nat (n - 1)) with 0%nat by lia.
  cbn [seq]. rewrite slice_nil. cbn [app].
  unfold apply, dac_toffoli_gate, call_gate. cbn [gate_arity].
  rewrite length_seq.
  now rewrite (proj2 (Z.eqb_neq _ _)) by (change (Z.to_nat 1) with 1%nat; lia).
Qed.

Lemma dac_toffoli_generator_small n :
  n <= 1 → ∃ e, dac_toffoli_generator n = Raise e.
Proof.
  intros Hn.
  destruct (Z.eq_dec n 1) as [->|]; [exists IndexError; reflexivity|].
  destruct (Z.eq_dec n 0) as [->|]; [exists IndexError; reflexivity|].
  exists InvalidGateArguments. apply dac_toffoli_generator_negative. lia.
Qed.

(** What the generator returns for [n = 2]: the first gate applied is
    the gate of [dac_toffoli] with parameter 2 again. *)
Lemma dac_toffoli_generator_2 :
  dac_toffoli_generator 2 =
  Ok {| max_wire := 3;
        op_list := [ (dac_toffoli_gate 2, [0; 2]%nat);
                     (ctrl 2 X, [2; 0; 1]%nat);
                     (dag (dac_toffoli_gate 2), [0; 2]%nat) ];
        ancillae := [2%nat];
        computed := [] |}.
Proof. reflexivity. Qed.

Lemma dac_toffoli_2 depth : dac_toffoli depth 2 = Raise RecursionError.
Proof.
  induction depth as [|d IH]; [reflexivity|].
  cbn [dac_toffoli]. rewrite dac_toffoli_generator_2.
  unfold link, dac_toffoli_gate, call_gate.
  cbn [op_list link_ops link_op fst snd].
  now rewrite IH.
Qed.

Lemma dac_toffoli_small_no_routine depth n :
  n < 3 → ∃ e, dac_toffoli depth n = Raise e.
Proof.
  intros Hn. destruct (Z.eq_dec n 2) as [->|N2].
  { exists RecursionError. apply dac_toffoli_2. }
  destruct depth as [|d]; [exists RecursionError; reflexivity|].
  destruct (dac_toffoli_generator_small n ltac:(lia)) as [e He].
  exists e. cbn [dac_toffoli]. now rewrite He.
Qed.

(** ** The single-gate routine *)

Lemma standard_toffoli_eq n :
  standard_toffoli n
  = if 1 <=? n then Ok (standard_routine n) else Raise TypeError.
Proof.
  unfold standard_toffoli, build, bind, new_wires, lift, py_ctrl.
  cbn [max_wire op_list ancillae computed new_routine].
  destruct (Z.leb_spec 1 n) as [Hn|Hn].
  - destruct (Z.ltb_spec (n - 1) 0); [lia|].
    rewrite apply_ok by (unfold ctrl; cbn [gate_arity]; rewrite length_seq; lia).
    reflexivity.
  - destruct (Z.ltb_spec (n - 1) 0); [reflexivity|lia].
Qed.

Lemma length_toffoli_table bs : length (toffoli_table bs) = length bs.
Proof.
  unfold toffoli_table.
  rewrite length_app, length_map, length_take, length_drop. lia.
Qed.

Lemma standard_routine_spec n :
  1 <= n → toffoli_spec (routine_gate (standard_routine n)) (Z.to_nat n).
Proof.
  intros Hn bs Hlen. unfold standard_routine, routine_gate.
  cbn [max_wire op_list ancillae].
  rewrite sem_Routine. unfold embed, project. rewrite non_ancillae_nil.
  assert (Hbs : bs = [] ++ bs ++ []) by (now rewrite app_nil_r).
  rewrite <- Hlen.
  rewrite (scatter_seq_at 0 [] (replicate (length bs) false) bs [] _);
    [ | now rewrite app_nil_r | reflexivity | apply length_replicate ].
  cbn [app]. rewrite app_nil_r, run_ops_cons, run_ops_nil.
  unfold step. cbn [fst snd].
  rewrite (gather_seq_at 0 (length bs) [] bs [] bs Hbs eq_refl eq_refl).
  replace (n - 1) with (Z.of_nat (Z.to_nat (n - 1))) by lia.
  rewrite sem_ctrl_X by lia.
  assert (Hsc : scatter (seq 0 (length bs)) (toffoli_table bs) bs
                = toffoli_table bs).
  { rewrite <- (length_toffoli_table bs).
    rewrite (scatter_seq_at 0 [] bs (toffoli_table bs) [] bs Hbs eq_refl)
      by (symmetry; apply length_toffoli_table).
    cbn [app]. apply app_nil_r. }
  rewrite Hsc, <- (length_toffoli_table bs).
  rewrite (gather_seq_at 0 _ [] (toffoli_table bs) [] (toffoli_table bs));
    [reflexivity | now rewrite app_nil_r | reflexivity | reflexivity].
Qed.

Lemma dac_toffoli_cases depth n :
  3 <= n → deep_enough depth n →
  ∃ r, dac_toffoli depth n = Ok r ∧ well_built n r ∧ dac_shape depth n r.
Proof.
  intros Hn Hd.
  destruct (dac_toffoli_well_built depth n Hn Hd) as (r & Hr & W).
  exists r. repeat split; try apply W; try assumption.
  destruct depth as [|d]; [discriminate|].
  destruct (Z.eq_dec n 3) as [->|N3].
  { left. split; [reflexivity|]. rewrite dac_toffoli_3 in Hr. congruence. }
  destruct (Z.eq_dec n 4) as [->|N4].
  { right; left. split; [reflexivity|].
    destruct d as [|d]; [discriminate|].
    rewrite dac_toffoli_4 in Hr. congruence. }
  right; right. split; [lia|].
  destruct (dac_toffoli_node d n ltac:(lia) Hd) as (r1 & r2 & H1 & H2 & H).
  exists d, r1, r2. repeat split; try assumption. congruence.
Qed.

Lemma toffoli_table_truth bs : controlled_not_table bs (toffoli_table bs).
Proof.
  split; [apply length_toffoli_table|]. unfold toffoli_table. split.
  - intros i Hi. rewrite lookup_app_l by (rewrite length_take; lia).
    now apply lookup_take_lt.
  - intros t Ht. pose proof (lookup_lt_Some _ _ _ Ht) as Hlt.
    rewrite lookup_app_r by (rewrite length_take; lia).
    rewrite length_take, list_lookup_fmap, lookup_drop.
    replace (length bs - 1 + (length bs - 1 - (length bs - 1) `min` length bs))%nat
      with (length bs - 1)%nat by lia.
    rewrite Ht. cbn. now destruct (forallb id (take (length bs - 1) bs)).
Qed.

(** ** The semantics at work *)

(** A routine that copies wire 0 into its ancilla and does not undo it:
    the arguments are unchanged, and the dirty ancilla is reported. *)
Example dirty_ancilla_is_reported :
  sem (Routine 4 [3%nat] [(ctrl 1 X, [0; 3]%nat)]) [true; false; false]
  = ([true; false; false], false).
Proof. vm_compute. reflexivity. Qed.

Example dac_toffoli_5_on_basis_states :
  ∃ r, dac_toffoli 2 5 = Ok r ∧
       sem (routine_gate r) [true; true; true; true; false]
       = ([true; true; true; true; true], true) ∧
       sem (routine_gate r) [true; false; true; true; true]
       = ([true; false; true; true; true], true).
Proof.
  exists (dac_node 5 dac_three dac_three).
  split; [|split]; vm_compute; reflexivity.
Qed.

Example dac_toffoli_4_one_call_too_few :
  dac_toffoli 1 4 = Raise RecursionError.
Proof. reflexivity. Qed.

(** ** Properties of the two constructions *)

(** C1. For every [n >= 3] and every basis state of the [n] wires, the
    routine of [dac_toffoli n] and the routine of [standard_toffoli n]
    give the same output, and it is the controlled-NOT truth table: the
    target, the last wire, is flipped iff the [n - 1] controls are all
    1, and every other wire is unchanged. *)
Theorem dac_toffoli_refines_standard_toffoli depth n :
  3 <= n → deep_enough depth n →
  ∃ r r',
    dac_toffoli depth n = Ok r ∧
    standard_toffoli n = Ok r' ∧
    ∀ bs, length bs = Z.to_nat n →
      fst (sem (routine_gate r) bs) = fst (sem (routine_gate r') bs) ∧
      controlled_not_table bs (fst (sem (routine_gate r) bs)).
Proof.
  intros Hn Hd.
  destruct (dac_toffoli_well_built depth n Hn Hd) as (r & Hr & _ & _ & _ & Hs).
  exists r, (standard_routine n). split; [exact Hr|]. split.
  - rewrite standard_toffoli_eq.
    now destruct (Z.leb_spec 1 n); [|lia].
  - intros bs Hlen.
    rewrite (Hs bs Hlen), (standard_routine_spec n ltac:(lia) bs Hlen).
    split; [reflexivity | apply toffoli_table_truth].
Qed.

Lemma dac_toffoli_refines_standard_toffoli_witness :
  ∃ r r',
    dac_toffoli 3 6 = Ok r ∧
    standard_toffoli 6 = Ok r' ∧
    ∀ bs, length bs = Z.to_nat 6 →
      fst (sem (routine_gate r) bs) = fst (sem (routine_gate r') bs) ∧
      controlled_not_table bs (fst (sem (routine_gate r) bs)).
Proof.
  apply (dac_toffoli_refines_standard_toffoli 3 6).
  - lia.
  - unfold deep_enough. simpl. lia.
Defined.

(** C2. For every [n >= 3] and every basis state, every ancilla borrowed
    by the routine of [dac_toffoli n], at any depth of the recursion, is
    back at 0 when its routine ends; the gate applications after the
    doubly-controlled NOT are the compute scope inverted, last one
    first, and no compute scope is left open. *)
Theorem dac_toffoli_restores_ancillae depth n :
  3 <= n → deep_enough depth n →
  ∃ r,
    dac_toffoli depth n = Ok r ∧
    computed r = [] ∧
    (∃ blk ws, op_list r = blk ++ [(ctrl 2 X, ws)] ++ rev (map dag_op blk)) ∧
    ∀ bs, length bs = Z.to_nat n →
      snd (sem (routine_gate r) bs) = true ∧
      all_zero (ancillae r) (fst (run_routine r bs)) = true.
Proof.
  intros Hn Hd.
  destruct (dac_toffoli_cases depth n Hn Hd)
    as (r & Hr & (_ & Hc & _ & Hs) & Hshape).
  exists r. split; [exact Hr|]. split; [exact Hc|]. split.
  - destruct Hshape as [[_ ->]|[[_ ->]|(_ & d & r1 & r2 & _ & _ & _ & ->)]].
    + exists [], [0; 1; 2]%nat. reflexivity.
    + exists [(routine_gate dac_three, [0; 1; 4]%nat)], [4; 2; 3]%nat.
      reflexivity.
    + unfold dac_node. cbn [op_list]. rewrite dac_ops_split. eauto.
  - intros bs Hlen. pose proof (Hs bs Hlen) as Hsem.
    unfold routine_gate in Hsem. rewrite sem_Routine in Hsem.
    unfold routine_gate at 1. rewrite sem_Routine. unfold run_routine.
    destruct (run_ops (op_list r) (embed (max_wire r) (ancillae r) bs, true))
      as [st ok].
    cbn [fst snd]. injection Hsem as _ Hok.
    apply andb_true_iff in Hok. split; [now apply andb_true_iff | apply Hok].
Qed.

Lemma dac_toffoli_restores_ancillae_witness :
  ∃ r,
    dac_toffoli 3 6 = Ok r ∧
    computed r = [] ∧
    (∃ blk ws, op_list r = blk ++ [(ctrl 2 X, ws)] ++ rev (map dag_op blk)) ∧
    ∀ bs, length bs = Z.to_nat 6 →
      snd (sem (routine_gate r) bs) = true ∧
      all_zero (ancillae r) (fst (run_routine r bs)) = true.
Proof.
  apply (dac_toffoli_restores_ancillae 3 6).
  - lia.
  - unfold deep_enough. simpl. lia.
Defined.

(** C3. For [n = 3] the routine is exactly one gate application: the
    doubly-controlled NOT on the two control wires and the target wire.
    No nested gate is built (one level of linking is enough) and no
    ancilla is allocated or marked. *)
Theorem dac_toffoli_base_case depth :
  dac_toffoli (S depth) 3 =
  Ok {| max_wire := 3;
        op_list := [(ctrl 2 X, [0; 1; 2]%nat)];
        ancillae := [];
        computed := [] |}.
Proof. reflexivity. Qed.

(** C4, as amended. For every [n > 3] the first half of the controls
    always gets a recursive call, whose routine writes that half's AND
    into a fresh ancilla.  The second half gets one too, into a second
    fresh ancilla, when it has more than one control; when it has a
    single control ([n = 4]) no call is made for it and that control
    wire is itself the second input of the doubly-controlled NOT.  The
    compute scope is then inverted. *)
Theorem dac_toffoli_recursive_case d n :
  3 < n → deep_enough (S d) n →
  ∃ r r1,
    dac_toffoli (S d) n = Ok r ∧
    dac_toffoli d (first_half n + 1) = Ok r1 ∧
    let N := Z.to_nat n in
    let a := Z.to_nat (first_half n) in
    let b := Z.to_nat (second_half n) in
    let first := (routine_gate r1, seq 0 a ++ [N]) in
    (second_half n > 1 ∧
     ∃ r2, dac_toffoli d (second_half n + 1) = Ok r2 ∧
           let second := (routine_gate r2, seq a b ++ [(N + 1)%nat]) in
           op_list r = [first; second]
                         ++ [(ctrl 2 X, [N; (N + 1)%nat; (N - 1)%nat])]
                         ++ rev (map dag_op [first; second]) ∧
           ancillae r = [N; (N + 1)%nat])
    ∨
    (second_half n = 1 ∧
     op_list r = [first]
                   ++ [(ctrl 2 X, [N; (N - 2)%nat; (N - 1)%nat])]
                   ++ rev (map dag_op [first]) ∧
     ancillae r = [N]).
Proof.
  intros Hn Hd.
  destruct (Z.eq_dec n 4) as [->|N4].
  - destruct d as [|d]; [unfold deep_enough in Hd; cbn in Hd; lia|].
    exists dac_four, dac_three. split; [apply dac_toffoli_4|].
    split; [apply dac_toffoli_3|]. right. repeat split.
  - destruct (dac_toffoli_node d n ltac:(lia) Hd) as (r1 & r2 & H1 & H2 & H).
    exists (dac_node n r1 r2), r1. split; [exact H|]. split; [exact H1|].
    pose proof (halves_sum n) as Hsum.
    pose proof (first_half_bounds n ltac:(lia)) as Hfh.
    pose proof (second_half_large n ltac:(lia)) as Hsh.
    left. split; [lia|]. exists r2. split; [exact H2|].
    unfold dac_node. cbn [op_list ancillae seq].
    rewrite dac_ops_split. unfold dac_block.
    replace (Z.to_nat (first_half n) + Z.to_nat (second_half n) + 1)%nat
      with (Z.to_nat n) by lia.
    replace (Z.to_nat (first_half n) + Z.to_nat (second_half n) + 2)%nat
      with (Z.to_nat n + 1)%nat by lia.
    replace (Z.to_nat (first_half n) + Z.to_nat (second_half n))%nat
      with (Z.to_nat n - 1)%nat by lia.
    replace (S (Z.to_nat n)) with (Z.to_nat n + 1)%nat by lia.
    split; reflexivity.
Qed.

Lemma dac_toffoli_recursive_case_witness :
  ∃ r r1,
    dac_toffoli 3 7 = Ok r ∧
    dac_toffoli 2 (first_half 7 + 1) = Ok r1 ∧
    let N := Z.to_nat 7 in
    let a := Z.to_nat (first_half 7) in
    let b := Z.to_nat (second_half 7) in
    let first := (routine_gate r1, seq 0 a ++ [N]) in
    (second_half 7 > 1 ∧
     ∃ r2, dac_toffoli 2 (second_half 7 + 1) = Ok r2 ∧
           let second := (routine_gate r2, seq a b ++ [(N + 1)%nat]) in
           op_list r = [first; second]
                         ++ [(ctrl 2 X, [N; (N + 1)%nat; (N - 1)%nat])]
                         ++ rev (map dag_op [first; second]) ∧
           ancillae r = [N; (N + 1)%nat])
    ∨
    (second_half 7 = 1 ∧
     op_list r = [first]
                   ++ [(ctrl 2 X, [N; (N - 2)%nat; (N - 1)%nat])]
                   ++ rev (map dag_op [first]) ∧
     ancillae r = [N]).
Proof.
  apply (dac_toffoli_recursive_case 2 7).
  - lia.
  - unfold deep_enough. simpl. lia.
Defined.

(** C4, as stated, fails at [n = 4]: the second half is the single
    control wire 2, no call is made for it, the only ancilla is wire 4,
    and the doubly-controlled NOT reads wire 2, which is not an
    ancilla. *)
Lemma dac_toffoli_4_second_half_not_recursive :
  ∃ r,
    dac_toffoli 2 4 = Ok r ∧
    ancillae r = [4%nat] ∧
    op_list r = [ (routine_gate dac_three, [0; 1; 4]%nat);
                  (ctrl 2 X, [4; 2; 3]%nat);
                  (dag (routine_gate dac_three), [0; 1; 4]%nat) ] ∧
    ¬ (∃ a1 a2 t, (ctrl 2 X, [a1; a2; t]) ∈ op_list r ∧
                  a1 ∈ ancillae r ∧ a2 ∈ ancillae r).
Proof.
  exists dac_four. repeat split.
  intros (a1 & a2 & t & Hin & _ & H2).
  cbn in Hin, H2.
  apply elem_of_cons in Hin as [Heq|Hin]; [discriminate|].
  apply elem_of_cons in Hin as [Heq|Hin].
  - injection Heq as -> -> ->.
    apply list_elem_of_singleton in H2. discriminate.
  - apply elem_of_cons in Hin as [Heq|Hin]; [discriminate|].
    now apply elem_of_nil in Hin.
Qed.

(** C5, as amended. For every [n >= 3] the routine of [dac_toffoli n]
    operates on [n - 1] control wires and 1 target wire, [n] wires in
    all: on controls [cs] and target [t] it leaves the controls as they
    are and flips the target iff all the controls are 1. *)
Theorem dac_toffoli_controls_and_target depth n :
  3 <= n → deep_enough depth n →
  ∃ r,
    dac_toffoli depth n = Ok r ∧
    arity r = (n - 1) + 1 ∧
    ∀ cs t, length cs = Z.to_nat (n - 1) →
      fst (sem (routine_gate r) (cs ++ [t])) = cs ++ [xorb (forallb id cs) t].
Proof.
  intros Hn Hd.
  destruct (dac_toffoli_well_built depth n Hn Hd) as (r & Hr & Ha & _ & _ & Hs).
  exists r. split; [exact Hr|]. split; [lia|].
  intros cs t Hcs.
  rewrite Hs by (rewrite length_app; cbn; lia).
  cbn [fst]. apply toffoli_table_snoc.
Qed.

Lemma dac_toffoli_controls_and_target_witness :
  ∃ r,
    dac_toffoli 2 5 = Ok r ∧
    arity r = (5 - 1) + 1 ∧
    ∀ cs t, length cs = Z.to_nat (5 - 1) →
      fst (sem (routine_gate r) (cs ++ [t])) = cs ++ [xorb (forallb id cs) t].
Proof.
  apply (dac_toffoli_controls_and_target 2 5).
  - lia.
  - unfold deep_enough. simpl. lia.
Defined.

(** C5, as stated, fails at [n = 3]: the routine has 3 wires, not 3
    controls and a target, and its only gate has 2 controls. *)
Lemma dac_toffoli_3_has_two_controls :
  ∃ r,
    dac_toffoli 1 3 = Ok r ∧
    arity r = 3 ∧
    arity r ≠ 3 + 1 ∧
    op_list r = [(ctrl 2 X, [0; 1; 2]%nat)].
Proof.
  exists dac_three. repeat split. discriminate.
Qed.

(** C6. For every [n], the routine returned by [standard_toffoli n] is
    one gate application, the NOT with [n - 1] controls on its [n]
    wires, with no ancilla and no compute scope; a routine is returned
    for every [n >= 1]. *)
Theorem standard_toffoli_single_gate n :
  (1 <= n → ∃ r, standard_toffoli n = Ok r) ∧
  ∀ r, standard_toffoli n = Ok r →
       op_list r = [(ctrl (n - 1) X, seq 0 (Z.to_nat n))] ∧
       Z.of_nat (max_wire r) = n ∧
       arity r = n ∧
       ancillae r = [] ∧
       computed r = [].
Proof.
  rewrite standard_toffoli_eq. destruct (Z.leb_spec 1 n) as [Hn|Hn].
  - split; [eauto|]. intros r [= <-]. unfold arity. cbn. repeat split; lia.
  - split; [lia|]. discriminate.
Qed.

Lemma standard_toffoli_single_gate_witness :
  ∃ r, standard_toffoli 4 = Ok r ∧
       op_list r = [(ctrl (4 - 1) X, seq 0 (Z.to_nat 4))].
Proof.
  destruct (standard_toffoli_single_gate 4) as [Hret Hshape].
  destruct (Hret ltac:(lia)) as [r Hr].
  exists r. split; [exact Hr | apply (Hshape r Hr)].
Defined.

(** C7. Both functions are registered under the gate name "TOFF", with
    one integer parameter and the arity function [n ↦ n]; the gate a
    call of [dac_toffoli] builds has the declared arity, and each
    generator returns a routine, whose arity is the declared one, for
    [n >= 3] and for [n >= 1] respectively. *)
Theorem TOFF_registration :
  gate_name realistic_lib.TOFF = "TOFF"%string ∧
  gate_name simulation_lib.TOFF = "TOFF"%string ∧
  arg_types realistic_lib.TOFF = [PyInt] ∧
  arg_types simulation_lib.TOFF = [PyInt] ∧
  (∀ n, declared_arity realistic_lib.TOFF n = n) ∧
  (∀ n, declared_arity simulation_lib.TOFF n = n) ∧
  (∀ n, gate_arity (dac_toffoli_gate n) = declared_arity realistic_lib.TOFF n) ∧
  (∀ n, 3 <= n →
        ∃ r : QRoutine, circuit_generator realistic_lib.TOFF n = Ok r ∧
                        arity r = declared_arity realistic_lib.TOFF n) ∧
  (∀ n, 1 <= n →
        ∃ r : QRoutine, circuit_generator simulation_lib.TOFF n = Ok r ∧
                        arity r = declared_arity simulation_lib.TOFF n).
Proof.
  repeat split.
  - intros n Hn.
    change (circuit_generator realistic_lib.TOFF n)
      with (dac_toffoli_generator n).
    change (declared_arity realistic_lib.TOFF n) with n.
    destruct (Z.eq_dec n 3) as [->|N3].
    { exists dac_three. split; reflexivity. }
    destruct (Z.eq_dec n 4) as [->|N4].
    { destruct (dac_toffoli_generator 4) as [r|e] eqn:E;
        vm_compute in E; [|discriminate].
      injection E as <-. eexists. split; reflexivity. }
    rewrite (dac_toffoli_generator_node n) by lia.
    eexists. split; [reflexivity|]. unfold arity. cbn. lia.
  - intros n Hn.
    change (circuit_generator simulation_lib.TOFF n) with (standard_toffoli n).
    rewrite standard_toffoli_eq. destruct (Z.leb_spec 1 n); [|lia].
    exists (standard_routine n). split; [reflexivity|].
    unfold arity. cbn. lia.
Qed.

Lemma TOFF_registration_witness :
  (∃ r : QRoutine, circuit_generator realistic_lib.TOFF 5 = Ok r ∧
                   arity r = declared_arity realistic_lib.TOFF 5) ∧
  (∃ r : QRoutine, circuit_generator simulation_lib.TOFF 1 = Ok r ∧
                   arity r = declared_arity simulation_lib.TOFF 1).
Proof.
  destruct TOFF_registration as (_ & _ & _ & _ & _ & _ & _ & Hdac & Hstd).
  split.
  - apply (Hdac 5). lia.
  - apply (Hstd 1). lia.
Defined.




(** C9. For every [n >= 3], [dac_toffoli n] terminates: it returns a
    routine as soon as linking may nest [log2_up (n - 1)] deep.  The
    recursive arguments, whenever they are used, are at least 3 and
    strictly below [n]. *)
Theorem dac_toffoli_terminates n :
  3 <= n →
  (∀ depth, Z.log2_up (n - 1) <= Z.of_nat depth →
            ∃ r, dac_toffoli depth n = Ok r) ∧
  (n ≠ 3 → 3 <= first_half n + 1 < n) ∧
  (n ≠ 3 → second_half n > 1 → 3 <= second_half n + 1 < n).
Proof.
  intros Hn. split; [|split].
  - intros depth Hdepth.
    assert (Hd : deep_enough depth n).
    { unfold deep_enough.
      pose proof (Z.log2_up_spec (n - 1) ltac:(lia)) as [_ Hup].
      pose proof (Z.pow_le_mono_r 2 _ _ ltac:(lia) Hdepth). lia. }
    destruct (dac_toffoli_well_built depth n Hn Hd) as (r & Hr & _).
    eauto.
  - intros N3. pose proof (first_half_bounds n ltac:(lia)). lia.
  - intros N3 Hs.
    pose proof (first_half_bounds n ltac:(lia)).
    pose proof (second_half_bounds n ltac:(lia)). lia.
Qed.

Lemma dac_toffoli_terminates_witness :
  (∀ depth, Z.log2_up (9 - 1) <= Z.of_nat depth →
            ∃ r, dac_toffoli depth 9 = Ok r) ∧
  (9 ≠ 3 → 3 <= first_half 9 + 1 < 9) ∧
  (9 ≠ 3 → second_half 9 > 1 → 3 <= second_half 9 + 1 < 9).
Proof.
  apply (dac_toffoli_terminates 9). lia.
Defined.

(** C10. For every [n >= 4], the body allocates and marks as ancillae
    exactly two fresh wires when [(n - 1) // 2 > 1], that is when
    [n >= 5], and exactly one when [n = 4]; then the last control wire,
    wire 2, is itself the second input of the final doubly-controlled
    NOT. *)
Theorem dac_toffoli_ancilla_count depth n :
  4 <= n → deep_enough depth n →
  ∃ r,
    dac_toffoli depth n = Ok r ∧
    (second_half n > 1 ↔ 5 <= n) ∧
    (5 <= n →
     max_wire r = (Z.to_nat n + 2)%nat ∧
     ancillae r = [Z.to_nat n; (Z.to_nat n + 1)%nat]) ∧
    (n = 4 →
     max_wire r = (Z.to_nat n + 1)%nat ∧
     ancillae r = [Z.to_nat n] ∧
     ∃ blk, op_list r = blk ++ [(ctrl 2 X, [4; 2; 3]%nat)]
                            ++ rev (map dag_op blk)).
Proof.
  intros Hn Hd.
  destruct (dac_toffoli_cases depth n ltac:(lia) Hd) as (r & Hr & _ & Hshape).
  exists r. split; [exact Hr|]. split.
  { split; intros Hs.
    - destruct (Z.eq_dec n 4) as [->|]; [|lia]. vm_compute in Hs. discriminate.
    - pose proof (second_half_large n Hs). lia. }
  destruct Hshape as [[-> _]|[[-> ->]|(H5 & d & r1 & r2 & _ & _ & _ & ->)]].
  - lia.
  - split; [lia|]. intros _. repeat split.
    exists [(routine_gate dac_three, [0; 1; 4]%nat)]. reflexivity.
  - split; [|lia]. intros _. unfold dac_node. cbn [max_wire ancillae seq].
    split; [reflexivity|]. repeat f_equal. lia.
Qed.

Lemma dac_toffoli_ancilla_count_witness :
  ∃ r,
    dac_toffoli 2 4 = Ok r ∧
    (second_half 4 > 1 ↔ 5 <= 4) ∧
    (5 <= 4 →
     max_wire r = (Z.to_nat 4 + 2)%nat ∧
     ancillae r = [Z.to_nat 4; (Z.to_nat 4 + 1)%nat]) ∧
    (4 = 4 →
     max_wire r = (Z.to_nat 4 + 1)%nat ∧
     ancillae r = [Z.to_nat 4] ∧
     ∃ blk, op_list r = blk ++ [(ctrl 2 X, [4; 2; 3]%nat)]
                            ++ rev (map dag_op blk)).
Proof.
  apply (dac_toffoli_ancilla_count 2 4).
  - lia.
  - unfold deep_enough. simpl. lia.
Defined.

(** ** Induction on the recursion of [dac_toffoli] *)

Lemma dac_toffoli_Ok_inv depth n r :
  dac_toffoli depth n = Ok r → 3 <= n ∧ deep_enough depth n.
Proof.
  intros Hr.
  destruct (Z.lt_ge_cases n 3) as [Hlt|Hge].
  { destruct (dac_toffoli_small_no_routine depth n Hlt) as [e He].
    rewrite He in Hr. discriminate. }
  split; [lia|].
  destruct (Z_le_dec (n - 1) (2 ^ Z.of_nat depth)) as [Hd|Hd]; [exact Hd|].
  rewrite dac_toffoli_too_shallow in Hr by (assumption || lia). discriminate.
Qed.

(** To prove a property of every routine [dac_toffoli] returns, prove it
    of the routines for 3 and 4 wires and carry it from the routines of
    the two halves to the routine built from them. *)
Lemma dac_toffoli_routine_ind (Q : Z → QRoutine → Prop) :
  Q 3 dac_three →
  Q 4 dac_four →
  (∀ n r1 r2, 5 <= n →
     well_built (first_half n + 1) r1 → well_built (second_half n + 1) r2 →
     Q (first_half n + 1) r1 → Q (second_half n + 1) r2 →
     Q n (dac_node n r1 r2)) →
  ∀ depth n r, dac_toffoli depth n = Ok r → Q n r.
Proof.
  intros Q3 Q4 Qnode depth.
  induction depth as [|d IH]; intros n r Hr; [discriminate|].
  destruct (dac_toffoli_Ok_inv _ _ _ Hr) as [Hn Hd].
  destruct (dac_toffoli_cases (S d) n Hn Hd) as (r' & Hr' & _ & Hshape).
  assert (r' = r) as -> by congruence.
  destruct Hshape as [[-> ->]|[[-> ->]|(H5 & d0 & r1 & r2 & [= <-] & H1 & H2 & ->)]];
    [exact Q3 | exact Q4 |].
  destruct (dac_toffoli_Ok_inv _ _ _ H1) as [Hn1 Hd1].
  destruct (dac_toffoli_Ok_inv _ _ _ H2) as [Hn2 Hd2].
  destruct (dac_toffoli_well_built d _ Hn1 Hd1) as (r1' & H1' & W1).
  destruct (dac_toffoli_well_built d _ Hn2 Hd2) as (r2' & H2' & W2).
  assert (r1' = r1) as -> by congruence.
  assert (r2' = r2) as -> by congruence.
  apply Qnode; eauto.
Qed.

(** ** The gates of the expanded routine *)

Lemma half_difference n : 0 <= first_half n - second_half n <= 1.
Proof.
  unfold first_half, second_half.
  pose proof (Z.mod_pos_bound (n - 1) 2 ltac:(lia)). lia.
Qed.

Lemma primitive_gates_node n r1 r2 :
  dag (routine_gate r1) = routine_gate r1 →
  dag (routine_gate r2) = routine_gate r2 →
  primitive_gates (routine_gate (dac_node n r1 r2))
  = primitive_gates (routine_gate r1) ++ primitive_gates (routine_gate r2)
      ++ [ctrl 2 X]
      ++ primitive_gates (routine_gate r2) ++ primitive_gates (routine_gate r1).
Proof.
  intros D1 D2. unfold dac_node, routine_gate at 1, dac_ops.
  cbn [max_wire ancillae op_list primitive_gates flat_map].
  rewrite D1, D2. unfold ctrl. cbn [primitive_gates app].
  now rewrite app_nil_r.
Qed.

(** X1. For every [n >= 3], once the routines used as gates are
    expanded, the routine of [dac_toffoli n] applies nothing but
    doubly-controlled NOTs: never a gate with more than two controls. *)
Theorem dac_toffoli_only_ccnot depth n :
  3 <= n → deep_enough depth n →
  ∃ r, dac_toffoli depth n = Ok r ∧
       primitive_gates (routine_gate r) ≠ [] ∧
       ∀ g, g ∈ primitive_gates (routine_gate r) → g = ctrl 2 X.
Proof.
  intros Hn Hd.
  destruct (dac_toffoli_well_built depth n Hn Hd) as (r & Hr & _).
  exists r. split; [exact Hr|].
  refine (dac_toffoli_routine_ind
            (fun _ r => primitive_gates (routine_gate r) ≠ [] ∧
                        ∀ g, g ∈ primitive_gates (routine_gate r) → g = ctrl 2 X)
            _ _ _ depth n r Hr).
  - split; [discriminate|]. intros g Hg. cbn in Hg.
    apply list_elem_of_singleton in Hg. exact Hg.
  - split; [discriminate|]. intros g Hg. cbn in Hg.
    repeat (apply elem_of_cons in Hg as [->|Hg]; [reflexivity|]).
    now apply elem_of_nil in Hg.
  - intros m r1 r2 H5 (_ & _ & D1 & _) (_ & _ & D2 & _) [_ Q1] [_ Q2].
    rewrite (primitive_gates_node m r1 r2 D1 D2).
    split.
    + intros Hnil. apply app_eq_nil in Hnil as [_ Hnil].
      apply app_eq_nil in Hnil as [_ Hnil]. discriminate.
    + intros g Hg. rewrite !elem_of_app in Hg.
      destruct Hg as [Hg|[Hg|[Hg|[Hg|Hg]]]]; auto.
      now apply list_elem_of_singleton in Hg.
Qed.

Lemma dac_toffoli_only_ccnot_witness :
  ∃ r, dac_toffoli 3 8 = Ok r ∧
       primitive_gates (routine_gate r) ≠ [] ∧
       ∀ g, g ∈ primitive_gates (routine_gate r) → g = ctrl 2 X.
Proof.
  apply (dac_toffoli_only_ccnot 3 8).
  - lia.
  - unfold deep_enough. simpl. lia.
Defined.

(** X2. For every [n >= 3], the number of doubly-controlled NOTs the
    routine of [dac_toffoli n] expands to is at least [2 (n - 1) - 3] and
    at most [(n - 1)^2 - 3]. *)
Theorem dac_toffoli_gate_count depth n :
  3 <= n → deep_enough depth n →
  ∃ r, dac_toffoli depth n = Ok r ∧
       2 * (n - 1) - 3
       <= Z.of_nat (length (primitive_gates (routine_gate r)))
       <= (n - 1) * (n - 1) - 3.
Proof.
  intros Hn Hd.
  destruct (dac_toffoli_well_built depth n Hn Hd) as (r & Hr & _).
  exists r. split; [exact Hr|].
  refine (dac_toffoli_routine_ind
            (fun n r => 2 * (n - 1) - 3
                        <= Z.of_nat (length (primitive_gates (routine_gate r)))
                        <= (n - 1) * (n - 1) - 3)
            _ _ _ depth n r Hr).
  - cbn. lia.
  - cbn. lia.
  - intros m r1 r2 H5 (_ & _ & D1 & _) (_ & _ & D2 & _) Q1 Q2.
    rewrite (primitive_gates_node m r1 r2 D1 D2).
    rewrite !length_app. cbn [length].
    pose proof (halves_sum m) as Hsum.
    pose proof (half_difference m) as Hdiff.
    pose proof (second_half_large m H5) as Hsh.
    set (c1 := length (primitive_gates (routine_gate r1))) in *.
    set (c2 := length (primitive_gates (routine_gate r2))) in *.
    set (a := first_half m) in *. set (b := second_half m) in *.
    replace (a + 1 - 1) with a in Q1 by lia.
    replace (b + 1 - 1) with b in Q2 by lia.
    assert (Hsq : (a - b) * (a - b) <= 1) by nia.
    split; [lia|]. nia.
Qed.

Lemma dac_toffoli_gate_count_witness :
  ∃ r, dac_toffoli 3 8 = Ok r ∧
       2 * (8 - 1) - 3
       <= Z.of_nat (length (primitive_gates (routine_gate r)))
       <= (8 - 1) * (8 - 1) - 3.
Proof.
  apply (dac_toffoli_gate_count 3 8).
  - lia.
  - unfold deep_enough. simpl. lia.
Defined.

(** ** Wiring *)

Lemma wires_run_in_range i k j m :
  (i + k <= j)%nat → (j < m)%nat →
  forallb (fun w => (w <? m)%nat) (seq i k ++ [j]) = true.
Proof.
  intros Hij Hjm. apply forallb_forall. intros w Hw. apply Nat.ltb_lt.
  apply in_app_iff in Hw as [Hw|[<-|[]]]; [|lia].
  apply in_seq in Hw. lia.
Qed.

Lemma wires_run_distinct i k j :
  (i + k <= j)%nat → bool_decide (NoDup (seq i k ++ [j])) = true.
Proof.
  intros Hij. apply bool_decide_eq_true. apply NoDup_app.
  split; [apply NoDup_seq|]. split; [|apply NoDup_singleton].
  intros w Hw Hj. apply elem_of_seq in Hw.
  apply list_elem_of_singleton in Hj. lia.
Qed.

Lemma well_wired_node n r1 r2 :
  5 <= n →
  well_built (first_half n + 1) r1 → well_built (second_half n + 1) r2 →
  well_wired (routine_gate r1) = true → well_wired (routine_gate r2) = true →
  well_wired (routine_gate (dac_node n r1 r2)) = true.
Proof.
  intros H5 (A1 & _ & D1 & _) (A2 & _ & D2 & _) W1 W2.
  pose proof (halves_sum n) as Hsum.
  pose proof (first_half_bounds n ltac:(lia)) as Hfh.
  pose proof (second_half_large n H5) as Hsh.
  unfold arity in A1, A2.
  unfold dac_node, routine_gate at 1, dac_ops.
  cbn [max_wire ancillae op_list well_wired forallb seq].
  rewrite D1, D2.
  set (a := Z.to_nat (first_half n)) in *.
  set (b := Z.to_nat (second_half n)) in *.
  assert (HN : Z.to_nat n = (a + b + 1)%nat) by lia.
  rewrite HN.
  repeat match goal with
         | |- (_ && _) = true => apply andb_true_iff; split
         end;
    try assumption; try reflexivity;
    try (apply Nat.ltb_lt; lia);
    try (apply wires_run_in_range; lia);
    try (apply wires_run_distinct; lia);
    try (apply Z.eqb_eq; rewrite length_app, length_seq;
         first [rewrite A1 | rewrite A2]; cbn [length]; lia).
  - apply bool_decide_eq_true. apply NoDup_cons. split.
    + intros Hin. apply list_elem_of_singleton in Hin. lia.
    + apply NoDup_singleton.
  - apply bool_decide_eq_true.
    apply NoDup_cons; split;
      [|apply NoDup_cons; split; [|apply NoDup_singleton]];
      rewrite ?elem_of_cons, ?elem_of_nil; intros Hin.
    + destruct Hin as [Hin|[Hin|[]]]; lia.
    + destruct Hin as [Hin|[]]; lia.
Qed.

(** X3. For every [n >= 3], every gate application in the routine of
    [dac_toffoli n], at every nesting depth, is on as many wires as the
    gate's arity, all distinct and all allocated by the routine it is
    in; the ancillae are distinct allocated wires. *)
Theorem dac_toffoli_well_wired depth n :
  3 <= n → deep_enough depth n →
  ∃ r, dac_toffoli depth n = Ok r ∧ well_wired (routine_gate r) = true.
Proof.
  intros Hn Hd.
  destruct (dac_toffoli_well_built depth n Hn Hd) as (r & Hr & _).
  exists r. split; [exact Hr|].
  refine (dac_toffoli_routine_ind
            (fun _ r => well_wired (routine_gate r) = true)
            _ _ _ depth n r Hr).
  - vm_compute. reflexivity.
  - vm_compute. reflexivity.
  - intros m r1 r2 H5 W1 W2 Q1 Q2. now apply well_wired_node.
Qed.

Lemma dac_toffoli_well_wired_witness :
  ∃ r, dac_toffoli 3 8 = Ok r ∧ well_wired (routine_gate r) = true.
Proof.
  apply (dac_toffoli_well_wired 3 8).
  - lia.
  - unfold deep_enough. simpl. lia.
Defined.

(** ** Inverse *)

Lemma toffoli_table_involutive bs : toffoli_table (toffoli_table bs) = bs.
Proof.
  destruct bs as [|a cs _] using rev_ind; [reflexivity|].
  rewrite !toffoli_table_snoc. now destruct (forallb id cs), a.
Qed.

(** X4. For every [n >= 3], the routine of [dac_toffoli n] is its own
    inverse: [dag] gives the same gate back, and applying the routine
    twice to a basis state returns that state. *)
Theorem dac_toffoli_self_inverse depth n :
  3 <= n → deep_enough depth n →
  ∃ r, dac_toffoli depth n = Ok r ∧
       dag (routine_gate r) = routine_gate r ∧
       ∀ bs, length bs = Z.to_nat n →
             fst (sem (routine_gate r) (fst (sem (routine_gate r) bs))) = bs.
Proof.
  intros Hn Hd.
  destruct (dac_toffoli_well_built depth n Hn Hd) as (r & Hr & _ & _ & D & Hs).
  exists r. split; [exact Hr|]. split; [exact D|].
  intros bs Hlen. rewrite (Hs bs Hlen). cbn [fst].
  rewrite Hs by (now rewrite length_toffoli_table).
  apply toffoli_table_involutive.
Qed.

Lemma dac_toffoli_self_inverse_witness :
  ∃ r, dac_toffoli 3 8 = Ok r ∧
       dag (routine_gate r) = routine_gate r ∧
       ∀ bs, length bs = Z.to_nat 8 →
             fst (sem (routine_gate r) (fst (sem (routine_gate r) bs))) = bs.
Proof.
  apply (dac_toffoli_self_inverse 3 8).
  - lia.
  - unfold deep_enough. simpl. lia.
Defined.

(** ** The single gate on few wires *)

(** X7. For every [n >= 1], [standard_toffoli n] returns a well-wired
    routine with the controlled-NOT truth table on its [n] wires and no
    ancilla to restore; this includes [n = 1], the plain NOT, and
    [n = 2], the singly-controlled NOT. *)
Theorem standard_toffoli_from_one_wire n :
  1 <= n →
  ∃ r, standard_toffoli n = Ok r ∧
       well_wired (routine_gate r) = true ∧
       ∀ bs, length bs = Z.to_nat n →
             controlled_not_table bs (fst (sem (routine_gate r) bs)) ∧
             snd (sem (routine_gate r) bs) = true.
Proof.
  intros Hn. exists (standard_routine n). split; [|split].
  - rewrite standard_toffoli_eq. now destruct (Z.leb_spec 1 n); [|lia].
  - unfold standard_routine, routine_gate, ctrl.
    cbn [max_wire ancillae op_list well_wired forallb gate_arity].
    repeat match goal with
           | |- (_ && _) = true => apply andb_true_iff; split
           end; try reflexivity.
    + apply Z.eqb_eq. rewrite length_seq. lia.
    + apply forallb_forall. intros w Hw. apply in_seq in Hw.
      apply Nat.ltb_lt. lia.
    + apply bool_decide_eq_true, NoDup_seq.
  - intros bs Hlen. rewrite (standard_routine_spec n Hn bs Hlen).
    split; [apply toffoli_table_truth | reflexivity].
Qed.

Lemma standard_toffoli_from_one_wire_witness :
  ∃ r, standard_toffoli 1 = Ok r ∧
       well_wired (routine_gate r) = true ∧
       ∀ bs, length bs = Z.to_nat 1 →
             controlled_not_table bs (fst (sem (routine_gate r) bs)) ∧
             snd (sem (routine_gate r) bs) = true.
Proof.
  apply (standard_toffoli_from_one_wire 1). lia.
Defined.

(** ** The two halves of the controls *)

Lemma slice_then_rest {A} (l : list A) k : slice l 0 k ++ slice_from l k = l.
Proof.
  unfold slice, slice_from.
  assert (H0 : py_bound (Z.of_nat (length l)) 0 = 0)
    by (unfold py_bound; cbn; lia).
  rewrite H0, Z.sub_0_r. change (Z.to_nat 0) with 0%nat.
  rewrite drop_0. apply take_drop.
Qed.

(** X8. The slices [controls[0:first_half]] and [controls[first_half:]]
    always make up the controls again, in order.  For [n >= 4] the first
    has [first_half] wires, the second [second_half] wires, both are
    non-empty, and the first has as many wires as the second or one
    more. *)
Theorem dac_toffoli_halves_partition n :
  let controls := seq 0 (Z.to_nat (n - 1)) in
  slice controls 0 (first_half n) ++ slice_from controls (first_half n)
  = controls ∧
  (4 <= n →
   Z.of_nat (length (slice controls 0 (first_half n))) = first_half n ∧
   Z.of_nat (length (slice_from controls (first_half n))) = second_half n ∧
   1 <= second_half n <= first_half n ∧
   first_half n <= second_half n + 1).
Proof.
  cbn zeta. split; [apply slice_then_rest|]. intros Hn.
  pose proof (first_half_bounds n Hn) as Hfh.
  pose proof (second_half_bounds n Hn) as Hsh.
  pose proof (half_difference n) as Hdiff.
  rewrite (slice_controls n Hn) by lia.
  rewrite (slice_from_controls n Hn) by lia.
  rewrite !length_seq. lia.
Qed.

Lemma dac_toffoli_halves_partition_witness :
  Z.of_nat (length (slice (seq 0 (Z.to_nat (8 - 1))) 0 (first_half 8)))
  = first_half 8 ∧
  Z.of_nat (length (slice_from (seq 0 (Z.to_nat (8 - 1))) (first_half 8)))
  = second_half 8 ∧
  1 <= second_half 8 <= first_half 8 ∧
  first_half 8 <= second_half 8 + 1.
Proof.
  apply (proj2 (dac_toffoli_halves_partition 8)). lia.
Defined.

(** ** Registers with ancillae in any state *)

Lemma dac_ops_run a b g1 g2 c1 c2 t a1 a2 ok :
  toffoli_spec g1 (S a) → toffoli_spec g2 (S b) →
  dag g1 = g1 → dag g2 = g2 →
  length c1 = a → length c2 = b →
  run_ops (dac_ops a b g1 g2) ((c1 ++ c2) ++ [t; a1; a2], ok)
  = ((c1 ++ c2)
       ++ [xorb (xorb (forallb id c1) a1 && xorb (forallb id c2) a2) t; a1; a2],
     ok).
Proof.
  intros G1 G2 D1 D2 <- <-.
  unfold dac_ops. rewrite D1, D2, !run_ops_cons, run_ops_nil.
  rewrite (step_sub g1 [] c1 (c2 ++ [t]) a1 [a2]);
    [ | exact G1 | reg_eq | wires_eq ].
  set (A1 := xorb (forallb id c1) a1).
  rewrite (step_sub g2 c1 c2 [t; A1] a2 []);
    [ | exact G2 | reg_eq | wires_eq ].
  set (A2 := xorb (forallb id c2) a2).
  match goal with
  | |- context [step (?st, _) (ctrl 2 X, _)] =>
      replace st with ((c1 ++ c2) ++ [t; A1; A2]) by reg_eq
  end.
  rewrite (step_ccnot _ _ _ _ _ A1 A2 t);
    [ | rewrite (lookup_app_at _ _ _ 1) by (rewrite length_app; lia); reflexivity
      | rewrite (lookup_app_at _ _ _ 2) by (rewrite length_app; lia); reflexivity
      | rewrite (lookup_app_at _ _ _ 0) by (rewrite length_app; lia); reflexivity ].
  rewrite (insert_app_at _ _ _ 0) by (rewrite length_app; lia).
  cbn [list_insert insert].
  set (t' := xorb (A1 && A2) t).
  rewrite (step_sub g2 c1 c2 [t'; A1] A2 []);
    [ | exact G2 | reg_eq | wires_eq ].
  rewrite (step_sub g1 [] c1 (c2 ++ [t']) A1 [xorb (forallb id c2) A2]);
    [ | exact G1 | reg_eq | wires_eq ].
  subst t' A1 A2. f_equal.
  destruct (forallb id c1), (forallb id c2), a1, a2; reg_eq.
Qed.

Lemma split_register (st : list bool) a b :
  length st = (a + b + 1 + 2)%nat →
  ∃ c1 c2 t a1 a2,
    st = (c1 ++ c2) ++ [t; a1; a2] ∧ length c1 = a ∧ length c2 = b.
Proof.
  intros Hlen.
  destruct st as [|a2 st _] using rev_ind; [cbn in Hlen; lia|].
  rewrite length_app in Hlen. cbn [length] in Hlen.
  destruct st as [|a1 st _] using rev_ind; [cbn in Hlen; lia|].
  rewrite length_app in Hlen. cbn [length] in Hlen.
  destruct (split_halves st a b ltac:(lia)) as (c1 & c2 & t & -> & Hc1 & Hc2).
  exists c1, c2, t, a1, a2. split; [|split; assumption].
  rewrite <- !app_assoc. reflexivity.
Qed.

(** X9. For every [n >= 3], running the gate applications of the routine
    of [dac_toffoli n] on any register of its wires, whatever its
    ancilla wires hold at the start, changes no wire but the target:
    the controls and the ancilla wires end as they started. *)
Theorem dac_toffoli_changes_only_target depth n :
  3 <= n → deep_enough depth n →
  ∃ r, dac_toffoli depth n = Ok r ∧
       ∀ st ok, length st = max_wire r →
         ∃ v, run_ops (op_list r) (st, ok)
              = (<[Z.to_nat (n - 1) := v]> st, ok).
Proof.
  intros Hn Hd.
  destruct (dac_toffoli_well_built depth n Hn Hd) as (r & Hr & _).
  exists r. split; [exact Hr|].
  refine (dac_toffoli_routine_ind
            (fun n r => ∀ st ok, length st = max_wire r →
               ∃ v, run_ops (op_list r) (st, ok)
                    = (<[Z.to_nat (n - 1) := v]> st, ok))
            _ _ _ depth n r Hr).
  - intros [|x [|y [|z [|? ?]]]] ok Hlen; try discriminate.
    exists (xorb (x && y) z). destruct x, y, z, ok; vm_compute; reflexivity.
  - intros [|x [|y [|z [|t [|a [|? ?]]]]]] ok Hlen; try discriminate.
    exists (xorb (xorb (x && y) a && z) t).
    destruct x, y, z, t, a, ok; vm_compute; reflexivity.
  - intros m r1 r2 H5 (_ & _ & D1 & S1) (_ & _ & D2 & S2) _ _ st ok Hlen.
    pose proof (halves_sum m) as Hsum.
    pose proof (first_half_bounds m ltac:(lia)) as Hfh.
    pose proof (second_half_large m H5) as Hsh.
    unfold dac_node in *. cbn [max_wire op_list] in *.
    set (a := Z.to_nat (first_half m)) in *.
    set (b := Z.to_nat (second_half m)) in *.
    destruct (split_register st a b ltac:(lia))
      as (c1 & c2 & t & a1 & a2 & -> & Hc1 & Hc2).
    eexists.
    rewrite (dac_ops_run a b _ _ c1 c2 t a1 a2 ok); try assumption.
    + rewrite (insert_app_at _ _ _ 0) by (rewrite length_app; lia).
      reflexivity.
    + replace (S a) with (Z.to_nat (first_half m + 1)) by lia. exact S1.
    + replace (S b) with (Z.to_nat (second_half m + 1)) by lia. exact S2.
Qed.

Lemma dac_toffoli_changes_only_target_witness :
  ∃ r, dac_toffoli 3 8 = Ok r ∧
       ∀ st ok, length st = max_wire r →
         ∃ v, run_ops (op_list r) (st, ok)
              = (<[Z.to_nat (8 - 1) := v]> st, ok).
Proof.
  apply (dac_toffoli_changes_only_target 3 8).
  - lia.
  - unfold deep_enough. simpl. lia.
Defined.
